(** * Janus WebRTC stream panel: a shallow embedding of [JanusPanel.tsx]

    The panel is a React function component.  Its mutable cells (the
    [useRef] and [useState] slots), the browser objects it touches (window
    timers, [MediaStream] objects, the video element) and the requests it
    issues to the Janus client library are gathered in one record [World].
    Every callback of the component is a computation in a state-and-exception
    monad over [World]; a JavaScript [throw] is the [Throw] result and
    [try { ... } catch] is [try_catch]. *)

From Stdlib Require Import ZArith String List Bool Lia.
From stdpp Require Import base option list gmap strings pretty.

Open Scope string_scope.
Open Scope Z_scope.

(** ** JavaScript values the panel handles *)

(** Result of evaluating a JavaScript expression: a value or a thrown error
    (rendered as the string [String(err)]). *)
Inductive Res (A : Type) : Type :=
| Ok (a : A)
| Throw (e : string).
Arguments Ok {A} a.
Arguments Throw {A} e.

(** [s.includes(needle)] on strings. *)
Fixpoint includes (s needle : string) : bool :=
  String.prefix needle s ||
  match s with
  | EmptyString => false
  | String _ s' => includes s' needle
  end.

(** An [any]-typed error object: its [message] property (absent on values
    that are not [Error]s) and its rendering [String(error)]. *)
Record JsError := {
  err_message : option string;
  err_string : string
}.

(** Truthiness of the values the code tests with [if (x)], [x && ...],
    [x || ...]. *)
Definition truthy_string (s : string) : bool :=
  match s with EmptyString => false | _ => true end.

Definition truthy_number (n : Z) : bool := negb (n =? 0).

(** [error.message || String(error)] *)
Definition message_or_string (e : JsError) : string :=
  match err_message e with
  | Some m => if truthy_string m then m else err_string e
  | None => err_string e
  end.

(** ** Data model (lines 9-45) *)

Inductive ConnectionState :=
| DISCONNECTED | INITIALIZING | CONNECTING | ATTACHING
| WATCHING | CONNECTED | STOPPED | DESTROYED.

(** The string value of each enum member. *)
Definition connectionLabel (c : ConnectionState) : string :=
  match c with
  | DISCONNECTED => "Not connected"
  | INITIALIZING => "Initializing Janus..."
  | CONNECTING => "Connecting to Janus server..."
  | ATTACHING => "Attaching to streaming plugin..."
  | WATCHING => "Starting stream..."
  | CONNECTED => "Connected"
  | STOPPED => "Stream stopped"
  | DESTROYED => "Connection destroyed"
  end.

Inductive ErrorSource := SrcJanus | SrcPlugin | SrcWebrtc | SrcPlayback | SrcStream.

Definition sourceLabel (s : ErrorSource) : string :=
  match s with
  | SrcJanus => "janus" | SrcPlugin => "plugin" | SrcWebrtc => "webrtc"
  | SrcPlayback => "playback" | SrcStream => "stream"
  end.

Record ConnectionError := {
  source : ErrorSource;
  message : string
}.

Record StreamSettings := {
  label : string;
  visible : bool;
  serverUrl : string;
  streamId : Z;
  debug : bool
}.

Record PanelState := { stream : StreamSettings }.

Record VideoStats := {
  width : Z;
  height : Z;
  bitrate : string
}.

Record JanusStreamState := {
  connectionState : ConnectionState;
  isConnected : bool;
  error : option ConnectionError;
  videoStats : option VideoStats;
  shouldReconnect : bool
}.

Inductive LogType := Info | Warn | Error.

Record LogEntry := {
  log_message : string;
  log_type : LogType
}.

Global Instance ConnectionState_eq_dec : EqDecision ConnectionState.
Proof. solve_decision. Defined.
Global Instance ErrorSource_eq_dec : EqDecision ErrorSource.
Proof. solve_decision. Defined.

(** ** Settings store (lines 57-68) *)

(** [Partial<PanelState>] as the host hands it over: every property may be
    missing ([undefined]) or [null]; both are [None]. *)
Record PartialStream := {
  p_label : option string;
  p_visible : option bool;
  p_serverUrl : option string;
  p_streamId : option Z;
  p_debug : option bool
}.

Record PartialPanelState := { p_stream : option PartialStream }.

(** [a ?? b] *)
Definition nullish {A} (a : option A) (b : A) : A :=
  match a with Some x => x | None => b end.
Infix "??" := nullish (at level 45, left associativity).

(** [partialState.stream?.f] *)
Definition stream_field {A} (ps : PartialPanelState) (f : PartialStream -> option A)
  : option A :=
  match p_stream ps with
  | Some s => f s
  | None => None
  end.

(** The lazy initializer of [useState<PanelState>].  [context.initialState]
    is [None] when the host passes [undefined]; reading [.stream] of it
    throws. *)
Definition initPanelState (initialState : option PartialPanelState) : Res PanelState :=
  match initialState with
  | None => Throw "TypeError: Cannot read properties of undefined (reading 'stream')"
  | Some partialState =>
      Ok {| stream := {|
        label := stream_field partialState p_label ?? "Janus Stream";
        visible := stream_field partialState p_visible ?? true;
        serverUrl := stream_field partialState p_serverUrl ?? "http://localhost:8088/janus";
        streamId := stream_field partialState p_streamId ?? 1;
        debug := stream_field partialState p_debug ?? false
      |} |}
  end.

(** The initial value of [useState<JanusStreamState>] (lines 71-77). *)
Definition initialStreamState : JanusStreamState := {|
  connectionState := DISCONNECTED;
  isConnected := false;
  error := None;
  videoStats := None;
  shouldReconnect := false
|}.

(** ** Browser objects *)

Inductive TrackKind := AudioTrack | VideoTrack.

(** A [MediaStreamTrack] object; two tracks are the same object when they
    agree on [id] and [kind]. *)
Record MediaStreamTrack := {
  track_id : string;
  kind : TrackKind
}.

Global Instance TrackKind_eq_dec : EqDecision TrackKind.
Proof. solve_decision. Defined.
Global Instance MediaStreamTrack_eq_dec : EqDecision MediaStreamTrack.
Proof. solve_decision. Defined.

(** The track set of a [MediaStream], in insertion order. *)
Definition getTracks (s : list MediaStreamTrack) : list MediaStreamTrack := s.

Definition getVideoTracks (s : list MediaStreamTrack) : list MediaStreamTrack :=
  filter (fun t => kind t = VideoTrack) s.

Definition removeTrack (t : MediaStreamTrack) (s : list MediaStreamTrack)
  : list MediaStreamTrack :=
  filter (fun t' => t' <> t) s.

(** [addTrack] does nothing when the track is already in the set. *)
Definition addTrack (t : MediaStreamTrack) (s : list MediaStreamTrack)
  : list MediaStreamTrack :=
  if decide (t ∈ s) then s else s ++ [t].

(** The [<video>] element behind [videoRef]: [srcObject] is a reference into
    the store of [MediaStream] objects. *)
Record HTMLVideoElement := {
  srcObject : option nat;
  videoWidth : Z;
  videoHeight : Z
}.

(** ** Objects of the Janus client library

    The library is an external collaborator.  What its methods answer is
    carried by the objects themselves, so that a statement over all worlds
    covers every behaviour of the library. *)

(** The [isConnected] property of a session: the code first asks
    [typeof isConnected === 'function']. *)
Inductive IsConnectedProp :=
| NotAFunction
| IsConnectedReturns (b : bool)
| IsConnectedThrows (e : string).

Record Janus := {
  janus_server : string;
  janus_isConnected : IsConnectedProp;
  janus_destroy : Res unit           (* outcome of [destroy(options)] *)
}.

Record PluginHandle := {
  handle_id : nat;
  getBitrate : string -> Res string  (* [getBitrate(mid)] *)
}.

Record JanusLibrary := {
  lib_init : Res unit;               (* outcome of [Janus.init] before its callback *)
  lib_new : string -> Janus;         (* [new Janus({server, ...})] *)
  lib_randomString : nat -> string   (* [Janus.randomString(len)] *)
}.

Inductive RequestBody :=
| ReqWatch (id : Z)                  (* [{ request: "watch", id }] *)
| ReqStart                           (* [{ request: "start" }] *)
| ReqStop.                           (* [{ request: "stop" }] *)

(** Calls that leave the component: to the Janus library, to the video
    element and to tracks.  They are recorded in issue order. *)
Inductive Call :=
| JanusInit (debugAll : bool)
| NewJanus (server : string)
| JanusDestroy (unload notifyDestroyed cleanupHandles : bool)
| JanusAttach (plugin opaqueId : string)
| PluginSend (h : nat) (body : RequestBody) (jsep : option string)
| PluginHangup (h : nat)
| PluginCreateAnswer (h : nat) (jsep : string)
| VideoPause
| VideoLoad
| VideoPlay
| TrackStop (t : MediaStreamTrack).

(** ** Closures *)

(** The values of [state] and [streamState] in the render in which a
    memoized callback was created.  [startStream] reads [state.stream.streamId]
    from it, [initJanusConnection] reads [state.stream.serverUrl], and the
    [onremotetrack] callback reads [streamState.isConnected]. *)
Record Render := {
  r_state : PanelState;
  r_streamState : JanusStreamState
}.

(** The callbacks handed to [setTimeout]. *)
Inductive Continuation :=
| KScrollLogs                               (* [log], line 85 *)
| KPlay (mid : string)                      (* [onremotetrack], line 372 *)
| KRestartCleanup (rd : Render)             (* [handleRestartStream], line 553 *)
| KRestartInit (rd : Render)                (* [handleRestartStream], line 558 *)
| KReconnectCleanup (cell : nat) (rd : Render)   (* reconnect effect, line 527 *)
| KReconnectInit (rd : Render).             (* reconnect effect, line 530 *)

(** The two [let] variables of one run of the reconnect effect, shared by
    its timer callback and its cleanup function. *)
Record ReconnectVars := {
  v_timeout : Z;
  v_reconnectTimeout : option Z
}.

(** ** The world *)

Record World := {
  (* useRef cells *)
  videoRef : option HTMLVideoElement;
  janusRef : option Janus;
  streamingRef : option PluginHandle;
  bitrateTimerRef : option Z;
  (* useState cells *)
  state : PanelState;
  streamState : JanusStreamState;
  logs : list LogEntry;
  (* window timers: pending setTimeout callbacks with their delay, live
     setInterval(updateBitrate) timers with the [mid] they close over *)
  timeouts : gmap Z (Continuation * Z);
  intervals : gmap Z string;
  nextTimer : Z;
  (* MediaStream objects *)
  mediaStreams : gmap nat (list MediaStreamTrack);
  nextStream : nat;
  (* reconnect effect: variables of each run, and the cleanup React holds *)
  reconnectVars : gmap nat ReconnectVars;
  nextVars : nat;
  reconnectCleanup : option nat;
  (* outside *)
  janusLib : JanusLibrary;
  calls : list Call
}.

(** Field updates. *)
Definition set_videoRef x (w : World) : World :=
  {| videoRef := x; janusRef := janusRef w; streamingRef := streamingRef w; bitrateTimerRef := bitrateTimerRef w; state := state w; streamState := streamState w; logs := logs w; timeouts := timeouts w; intervals := intervals w; nextTimer := nextTimer w; mediaStreams := mediaStreams w; nextStream := nextStream w; reconnectVars := reconnectVars w; nextVars := nextVars w; reconnectCleanup := reconnectCleanup w; janusLib := janusLib w; calls := calls w |}.
Definition set_janusRef x (w : World) : World :=
  {| videoRef := videoRef w; janusRef := x; streamingRef := streamingRef w; bitrateTimerRef := bitrateTimerRef w; state := state w; streamState := streamState w; logs := logs w; timeouts := timeouts w; intervals := intervals w; nextTimer := nextTimer w; mediaStreams := mediaStreams w; nextStream := nextStream w; reconnectVars := reconnectVars w; nextVars := nextVars w; reconnectCleanup := reconnectCleanup w; janusLib := janusLib w; calls := calls w |}.
Definition set_streamingRef x (w : World) : World :=
  {| videoRef := videoRef w; janusRef := janusRef w; streamingRef := x; bitrateTimerRef := bitrateTimerRef w; state := state w; streamState := streamState w; logs := logs w; timeouts := timeouts w; intervals := intervals w; nextTimer := nextTimer w; mediaStreams := mediaStreams w; nextStream := nextStream w; reconnectVars := reconnectVars w; nextVars := nextVars w; reconnectCleanup := reconnectCleanup w; janusLib := janusLib w; calls := calls w |}.
Definition set_bitrateTimerRef x (w : World) : World :=
  {| videoRef := videoRef w; janusRef := janusRef w; streamingRef := streamingRef w; bitrateTimerRef := x; state := state w; streamState := streamState w; logs := logs w; timeouts := timeouts w; intervals := intervals w; nextTimer := nextTimer w; mediaStreams := mediaStreams w; nextStream := nextStream w; reconnectVars := reconnectVars w; nextVars := nextVars w; reconnectCleanup := reconnectCleanup w; janusLib := janusLib w; calls := calls w |}.
Definition set_state x (w : World) : World :=
  {| videoRef := videoRef w; janusRef := janusRef w; streamingRef := streamingRef w; bitrateTimerRef := bitrateTimerRef w; state := x; streamState := streamState w; logs := logs w; timeouts := timeouts w; intervals := intervals w; nextTimer := nextTimer w; mediaStreams := mediaStreams w; nextStream := nextStream w; reconnectVars := reconnectVars w; nextVars := nextVars w; reconnectCleanup := reconnectCleanup w; janusLib := janusLib w; calls := calls w |}.
Definition set_streamState x (w : World) : World :=
  {| videoRef := videoRef w; janusRef := janusRef w; streamingRef := streamingRef w; bitrateTimerRef := bitrateTimerRef w; state := state w; streamState := x; logs := logs w; timeouts := timeouts w; intervals := intervals w; nextTimer := nextTimer w; mediaStreams := mediaStreams w; nextStream := nextStream w; reconnectVars := reconnectVars w; nextVars := nextVars w; reconnectCleanup := reconnectCleanup w; janusLib := janusLib w; calls := calls w |}.
Definition set_logs x (w : World) : World :=
  {| videoRef := videoRef w; janusRef := janusRef w; streamingRef := streamingRef w; bitrateTimerRef := bitrateTimerRef w; state := state w; streamState := streamState w; logs := x; timeouts := timeouts w; intervals := intervals w; nextTimer := nextTimer w; mediaStreams := mediaStreams w; nextStream := nextStream w; reconnectVars := reconnectVars w; nextVars := nextVars w; reconnectCleanup := reconnectCleanup w; janusLib := janusLib w; calls := calls w |}.
Definition set_timeouts x (w : World) : World :=
  {| videoRef := videoRef w; janusRef := janusRef w; streamingRef := streamingRef w; bitrateTimerRef := bitrateTimerRef w; state := state w; streamState := streamState w; logs := logs w; timeouts := x; intervals := intervals w; nextTimer := nextTimer w; mediaStreams := mediaStreams w; nextStream := nextStream w; reconnectVars := reconnectVars w; nextVars := nextVars w; reconnectCleanup := reconnectCleanup w; janusLib := janusLib w; calls := calls w |}.
Definition set_intervals x (w : World) : World :=
  {| videoRef := videoRef w; janusRef := janusRef w; streamingRef := streamingRef w; bitrateTimerRef := bitrateTimerRef w; state := state w; streamState := streamState w; logs := logs w; timeouts := timeouts w; intervals := x; nextTimer := nextTimer w; mediaStreams := mediaStreams w; nextStream := nextStream w; reconnectVars := reconnectVars w; nextVars := nextVars w; reconnectCleanup := reconnectCleanup w; janusLib := janusLib w; calls := calls w |}.
Definition set_nextTimer x (w : World) : World :=
  {| videoRef := videoRef w; janusRef := janusRef w; streamingRef := streamingRef w; bitrateTimerRef := bitrateTimerRef w; state := state w; streamState := streamState w; logs := logs w; timeouts := timeouts w; intervals := intervals w; nextTimer := x; mediaStreams := mediaStreams w; nextStream := nextStream w; reconnectVars := reconnectVars w; nextVars := nextVars w; reconnectCleanup := reconnectCleanup w; janusLib := janusLib w; calls := calls w |}.
Definition set_mediaStreams x (w : World) : World :=
  {| videoRef := videoRef w; janusRef := janusRef w; streamingRef := streamingRef w; bitrateTimerRef := bitrateTimerRef w; state := state w; streamState := streamState w; logs := logs w; timeouts := timeouts w; intervals := intervals w; nextTimer := nextTimer w; mediaStreams := x; nextStream := nextStream w; reconnectVars := reconnectVars w; nextVars := nextVars w; reconnectCleanup := reconnectCleanup w; janusLib := janusLib w; calls := calls w |}.
Definition set_nextStream x (w : World) : World :=
  {| videoRef := videoRef w; janusRef := janusRef w; streamingRef := streamingRef w; bitrateTimerRef := bitrateTimerRef w; state := state w; streamState := streamState w; logs := logs w; timeouts := timeouts w; intervals := intervals w; nextTimer := nextTimer w; mediaStreams := mediaStreams w; nextStream := x; reconnectVars := reconnectVars w; nextVars := nextVars w; reconnectCleanup := reconnectCleanup w; janusLib := janusLib w; calls := calls w |}.
Definition set_reconnectVars x (w : World) : World :=
  {| videoRef := videoRef w; janusRef := janusRef w; streamingRef := streamingRef w; bitrateTimerRef := bitrateTimerRef w; state := state w; streamState := streamState w; logs := logs w; timeouts := timeouts w; intervals := intervals w; nextTimer := nextTimer w; mediaStreams := mediaStreams w; nextStream := nextStream w; reconnectVars := x; nextVars := nextVars w; reconnectCleanup := reconnectCleanup w; janusLib := janusLib w; calls := calls w |}.
Definition set_nextVars x (w : World) : World :=
  {| videoRef := videoRef w; janusRef := janusRef w; streamingRef := streamingRef w; bitrateTimerRef := bitrateTimerRef w; state := state w; streamState := streamState w; logs := logs w; timeouts := timeouts w; intervals := intervals w; nextTimer := nextTimer w; mediaStreams := mediaStreams w; nextStream := nextStream w; reconnectVars := reconnectVars w; nextVars := x; reconnectCleanup := reconnectCleanup w; janusLib := janusLib w; calls := calls w |}.
Definition set_reconnectCleanup x (w : World) : World :=
  {| videoRef := videoRef w; janusRef := janusRef w; streamingRef := streamingRef w; bitrateTimerRef := bitrateTimerRef w; state := state w; streamState := streamState w; logs := logs w; timeouts := timeouts w; intervals := intervals w; nextTimer := nextTimer w; mediaStreams := mediaStreams w; nextStream := nextStream w; reconnectVars := reconnectVars w; nextVars := nextVars w; reconnectCleanup := x; janusLib := janusLib w; calls := calls w |}.
Definition set_janusLib x (w : World) : World :=
  {| videoRef := videoRef w; janusRef := janusRef w; streamingRef := streamingRef w; bitrateTimerRef := bitrateTimerRef w; state := state w; streamState := streamState w; logs := logs w; timeouts := timeouts w; intervals := intervals w; nextTimer := nextTimer w; mediaStreams := mediaStreams w; nextStream := nextStream w; reconnectVars := reconnectVars w; nextVars := nextVars w; reconnectCleanup := reconnectCleanup w; janusLib := x; calls := calls w |}.
Definition set_calls x (w : World) : World :=
  {| videoRef := videoRef w; janusRef := janusRef w; streamingRef := streamingRef w; bitrateTimerRef := bitrateTimerRef w; state := state w; streamState := streamState w; logs := logs w; timeouts := timeouts w; intervals := intervals w; nextTimer := nextTimer w; mediaStreams := mediaStreams w; nextStream := nextStream w; reconnectVars := reconnectVars w; nextVars := nextVars w; reconnectCleanup := reconnectCleanup w; janusLib := janusLib w; calls := x |}.

Definition set_srcObject (r : option nat) (el : HTMLVideoElement) : HTMLVideoElement :=
  {| srcObject := r; videoWidth := videoWidth el; videoHeight := videoHeight el |}.

(** ** The monad of callbacks *)

Definition M (A : Type) : Type := World -> Res A * World.

Definition ret {A} (a : A) : M A := fun w => (Ok a, w).

Definition bind {A B} (m : M A) (k : A -> M B) : M B :=
  fun w =>
    match m w with
    | (Ok a, w') => k a w'
    | (Throw e, w') => (Throw e, w')
    end.

Definition throw {A} (e : string) : M A := fun w => (Throw e, w).

(** [try { m } catch (err) { h err }] *)
Definition try_catch {A} (m : M A) (h : string -> M A) : M A :=
  fun w =>
    match m w with
    | (Ok a, w') => (Ok a, w')
    | (Throw e, w') => h e w'
    end.

Definition gets {A} (f : World -> A) : M A := fun w => (Ok (f w), w).

Definition modify (f : World -> World) : M unit := fun w => (Ok tt, f w).

Declare Scope js_scope.
Delimit Scope js_scope with js.
Bind Scope js_scope with M.
Notation "x <- c1 ;; c2" := (bind c1 (fun x => c2))
  (at level 100, c1 at next level, right associativity) : js_scope.
Notation "c1 ;; c2" := (bind c1 (fun _ => c2))
  (at level 100, c2 at level 200, right associativity) : js_scope.
Open Scope js_scope.

Definition when (b : bool) (m : M unit) : M unit := if b then m else ret tt.

(** [xs.forEach(f)] *)
Fixpoint forEach {A} (xs : list A) (f : A -> M unit) : M unit :=
  match xs with
  | [] => ret tt
  | x :: xs' => f x ;; forEach xs' f
  end.

(** The world a callback leaves behind, and its completion. *)
Definition exec {A} (m : M A) (w : World) : World := snd (m w).
Definition result {A} (m : M A) (w : World) : Res A := fst (m w).

(** ** Browser primitives *)

(** [window.setTimeout(k, delay)]: timer handles are handed out in
    increasing order from one pool shared with [setInterval]. *)
Definition setTimeout (k : Continuation) (delay : Z) : M Z :=
  h <- gets nextTimer ;;
  modify (fun w => set_nextTimer (h + 1)
                     (set_timeouts (<[h := (k, delay)]> (timeouts w)) w)) ;;
  ret h.

(** [window.setInterval(updateBitrate, 1000)], with the [mid] that
    [updateBitrate] closes over. *)
Definition setInterval (mid : string) : M Z :=
  h <- gets nextTimer ;;
  modify (fun w => set_nextTimer (h + 1)
                     (set_intervals (<[h := mid]> (intervals w)) w)) ;;
  ret h.

(** [clearTimeout(h)] and [clearInterval(h)] are interchangeable in
    browsers: either cancels whichever timer has handle [h]. *)
Definition clearTimer (h : Z) : M unit :=
  modify (fun w => set_intervals (delete h (intervals w))
                     (set_timeouts (delete h (timeouts w)) w)).
Definition clearTimeout := clearTimer.
Definition clearInterval := clearTimer.

Definition call (c : Call) : M unit :=
  modify (fun w => set_calls (calls w ++ [c]) w).

(** The tracks of the [MediaStream] object behind a reference. *)
Definition derefStream (w : World) (r : nat) : list MediaStreamTrack :=
  default [] (mediaStreams w !! r).

(** A method call that mutates the [MediaStream] object behind [r]. *)
Definition streamModify (r : nat) (f : list MediaStreamTrack -> list MediaStreamTrack)
  : M unit :=
  modify (fun w => set_mediaStreams (<[r := f (derefStream w r)]> (mediaStreams w)) w).

(** [new MediaStream()] *)
Definition newMediaStream : M nat :=
  r <- gets nextStream ;;
  modify (fun w => set_nextStream (S r)
                     (set_mediaStreams (<[r := []]> (mediaStreams w)) w)) ;;
  ret r.

(** ** Logging and stream-state updates (lines 81-112) *)

Definition log (msg : string) (ty : LogType) : M unit :=
  modify (fun w => set_logs (logs w ++ [{| log_message := msg; log_type := ty |}]) w) ;;
  _ <- setTimeout KScrollLogs 0 ;;
  ret tt.

(** [Partial<JanusStreamState>]: a key that is absent is [None]; a key that
    is present holds its new value, which for [error] and [videoStats] may
    be [null]. *)
Record StreamUpdate := {
  u_connectionState : option ConnectionState;
  u_isConnected : option bool;
  u_error : option (option ConnectionError);
  u_videoStats : option (option VideoStats);
  u_shouldReconnect : option bool
}.

(** [{ ...currentState, ...update }] *)
Definition applyUpdate (cur : JanusStreamState) (u : StreamUpdate) : JanusStreamState := {|
  connectionState := u_connectionState u ?? connectionState cur;
  isConnected := u_isConnected u ?? isConnected cur;
  error := u_error u ?? error cur;
  videoStats := u_videoStats u ?? videoStats cur;
  shouldReconnect := u_shouldReconnect u ?? shouldReconnect cur
|}.

(** The test of lines 104-106 once [update.error] is known to be an object. *)
Definition error_is_new (e : ConnectionError) (cur : option ConnectionError) : bool :=
  match cur with
  | None => true
  | Some c => negb (String.eqb (message e) (message c))
              || negb (bool_decide (source e = source c))
  end.

Definition updateStreamState (update : StreamUpdate) : M unit :=
  currentState <- gets streamState ;;
  (match u_connectionState update with
   | Some c =>
       when (negb (bool_decide (c = connectionState currentState)))
            (log ("Connection state: " +:+ connectionLabel c) Info)
   | None => ret tt
   end) ;;
  (match u_error update with
   | Some (Some e) =>
       when (error_is_new e (error currentState))
            (log ("Error (" +:+ sourceLabel (source e) +:+ "): " +:+ message e) Error)
   | _ => ret tt
   end) ;;
  modify (set_streamState (applyUpdate currentState update)).

(** ** Connection controller *)

(** The block [if (bitrateTimerRef.current) { clearInterval(...);
    bitrateTimerRef.current = null; }], written out three times in the
    source (lines 219-222, 339-342, 428-431). *)
Definition stopBitrateTimer : M unit :=
  t <- gets bitrateTimerRef ;;
  match t with
  | Some h =>
      when (truthy_number h)
           (clearInterval h ;; modify (set_bitrateTimerRef None))
  | None => ret tt
  end.

(** [stopStream] (lines 173-199) *)
Definition stopStream : M unit :=
  s <- gets streamingRef ;;
  match s with
  | None => ret tt
  | Some handle =>
      log "Stopping stream" Info ;;
      v <- gets videoRef ;;
      (match v with
       | Some el =>
           let oldSrcObject := srcObject el in
           call VideoPause ;;
           modify (set_videoRef (Some (set_srcObject None el))) ;;
           match oldSrcObject with
           | Some r =>
               tracks <- gets (fun w => getTracks (derefStream w r)) ;;
               forEach tracks (fun track =>
                 call (TrackStop track) ;;
                 streamModify r (removeTrack track))
           | None => ret tt
           end
       | None => ret tt
       end) ;;
      call (PluginSend (handle_id handle) ReqStop None) ;;
      call (PluginHangup (handle_id handle))
  end.

(** [startStream] (lines 201-213) *)
Definition startStream (rd : Render) : M unit :=
  s <- gets streamingRef ;;
  match s with
  | None =>
      updateStreamState {|
        u_connectionState := Some DISCONNECTED;
        u_isConnected := None;
        u_error := Some (Some {| source := SrcPlugin;
                                 message := "Streaming plugin not initialized" |});
        u_videoStats := None;
        u_shouldReconnect := None |}
  | Some handle =>
      updateStreamState {|
        u_connectionState := Some WATCHING;
        u_isConnected := None; u_error := None;
        u_videoStats := None; u_shouldReconnect := None |} ;;
      call (PluginSend (handle_id handle)
                       (ReqWatch (streamId (stream (r_state rd)))) None)
  end.

(** The update [{ connectionState: c, isConnected: false, videoStats: null }]
    shared by [cleanupJanus], [oncleanup], [destroyed] and the inactive-track
    branch. *)
Definition resetTo (c : ConnectionState) : StreamUpdate := {|
  u_connectionState := Some c;
  u_isConnected := Some false;
  u_error := None;
  u_videoStats := Some None;
  u_shouldReconnect := None
|}.

(** [janusRef.current.isConnected()] behind its [typeof] guard (line 226). *)
Definition janusIsConnected (j : Janus) : M bool :=
  match janus_isConnected j with
  | NotAFunction => ret false
  | IsConnectedReturns b => ret b
  | IsConnectedThrows e => throw e
  end.

(** [janusRef.current.destroy({ unload: true, notifyDestroyed: false,
    cleanupHandles: true })] (lines 230-234) *)
Definition janusDestroy (j : Janus) : M unit :=
  call (JanusDestroy true false true) ;;
  match janus_destroy j with
  | Ok _ => ret tt
  | Throw e => throw e
  end.

(** [cleanupJanus] (lines 215-253) *)
Definition cleanupJanus : M unit :=
  log "Cleaning up Janus resources" Info ;;
  stopBitrateTimer ;;
  j <- gets janusRef ;;
  (match j with
   | Some janus =>
       try_catch
         (connected <- janusIsConnected janus ;;
          when connected (log "Forcing Janus disconnection before cleanup" Info) ;;
          janusDestroy janus)
         (fun err => log ("Error during Janus cleanup: " +:+ err) Warn) ;;
       modify (set_janusRef None)
   | None => ret tt
   end) ;;
  modify (set_streamingRef None) ;;
  v <- gets videoRef ;;
  (match v with
   | Some el =>
       modify (set_videoRef (Some (set_srcObject None el))) ;;
       call VideoLoad
   | None => ret tt
   end) ;;
  updateStreamState (resetTo DISCONNECTED).

(** [initJanusConnection] up to the constructor call (lines 255-266); the
    callbacks it installs follow. *)
Definition initJanusConnection (rd : Render) : M unit :=
  log "Initializing new Janus connection" Info ;;
  updateStreamState {|
    u_connectionState := Some CONNECTING;
    u_isConnected := Some false;
    u_error := Some None;
    u_videoStats := None; u_shouldReconnect := None |} ;;
  lib <- gets janusLib ;;
  let server := serverUrl (stream (r_state rd)) in
  call (NewJanus server) ;;
  modify (set_janusRef (Some (lib_new lib server))).

(** Session [success] callback (lines 271-276): [janusRef.current?.attach]. *)
Definition onJanusSuccess : M unit :=
  log "Connected to Janus server, attaching plugin" Info ;;
  updateStreamState {|
    u_connectionState := Some ATTACHING;
    u_isConnected := None; u_error := None;
    u_videoStats := None; u_shouldReconnect := None |} ;;
  j <- gets janusRef ;;
  match j with
  | Some _ =>
      lib <- gets janusLib ;;
      call (JanusAttach "janus.plugin.streaming"
                        ("foxglovestreamingtest-" +:+ lib_randomString lib 12))
  | None => ret tt
  end.

(** A state update that forces Disconnected and surfaces an error. *)
Definition failWith (src : ErrorSource) (msg : string) : StreamUpdate := {|
  u_connectionState := Some DISCONNECTED;
  u_isConnected := None;
  u_error := Some (Some {| source := src; message := msg |});
  u_videoStats := None;
  u_shouldReconnect := None
|}.

(** Attach [success] callback (lines 280-284) *)
Definition onAttachSuccess (rd : Render) (pluginHandle : PluginHandle) : M unit :=
  log "Successfully attached to streaming plugin" Info ;;
  modify (set_streamingRef (Some pluginHandle)) ;;
  startStream rd.

(** Attach [error] callback (lines 287-292) *)
Definition onAttachError (e : JsError) : M unit :=
  updateStreamState (failWith SrcPlugin (err_string e)).

(** A signaling message: only its [error] property is read. *)
Record Message := { msg_error : option string }.

(** The [if (jsep && streamingRef.current)] part of [onmessage]: answer the
    offer, receive-only. *)
Definition answerOffer (jsep : option string) : M unit :=
  s <- gets streamingRef ;;
  match jsep, s with
  | Some offer, Some handle => call (PluginCreateAnswer (handle_id handle) offer)
  | _, _ => ret tt
  end.

(** [msg["error"]] as a condition. *)
Definition truthy_error (msg : Message) : option string :=
  match msg_error msg with
  | Some e => if truthy_string e then Some e else None
  | None => None
  end.

(** [onmessage] (lines 295-327) *)
Definition onmessage (msg : Message) (jsep : option string) : M unit :=
  match truthy_error msg with
  | Some e =>
      updateStreamState {|
        u_connectionState := None; u_isConnected := None;
        u_error := Some (Some {| source := SrcStream; message := e |});
        u_videoStats := None; u_shouldReconnect := None |}
  | None => answerOffer jsep
  end.

(** [createAnswer] [success] callback (lines 311-316) *)
Definition onAnswerSuccess (jsep : string) : M unit :=
  s <- gets streamingRef ;;
  match s with
  | Some handle => call (PluginSend (handle_id handle) ReqStart (Some jsep))
  | None => ret tt
  end.

(** [createAnswer] [error] callback (lines 319-324) *)
Definition onAnswerError (e : JsError) : M unit :=
  updateStreamState (failWith SrcWebrtc (message_or_string e)).

(** Session [error] callback (lines 447-452) *)
Definition onJanusError (e : JsError) : M unit :=
  updateStreamState (failWith SrcJanus (err_string e)).

(** Session [destroyed] callback (lines 455-461) *)
Definition onJanusDestroyed : M unit :=
  updateStreamState (resetTo DESTROYED).

(** ** Remote tracks and playback (lines 330-442) *)

(** [videoRef.current!]: the non-null assertion is erased at run time, so a
    property access on it throws when the element is not mounted. *)
Definition videoRefCurrent : M HTMLVideoElement :=
  v <- gets videoRef ;;
  match v with
  | Some el => ret el
  | None => throw "TypeError: Cannot read properties of null (reading 'srcObject')"
  end.

(** [Janus.attachMediaStream(element, stream)] sets [element.srcObject]. *)
Definition attachMediaStream (el : HTMLVideoElement) (r : nat) : M unit :=
  modify (set_videoRef (Some (set_srcObject (Some r) el))).

(** [updateBitrate], the sampler closure of lines 383-398. *)
Definition updateBitrate (mid : string) : M unit :=
  v <- gets videoRef ;;
  s <- gets streamingRef ;;
  match v, s with
  | Some el, Some handle =>
      when (truthy_number (videoWidth el))
        (try_catch
           (match getBitrate handle mid with
            | Ok b =>
                updateStreamState {|
                  u_connectionState := None; u_isConnected := None; u_error := None;
                  u_videoStats := Some (Some {| width := videoWidth el;
                                                height := videoHeight el;
                                                bitrate := b |});
                  u_shouldReconnect := None |}
            | Throw e => throw e
            end)
           (fun e => log ("Error getting bitrate: " +:+ e) Warn))
  | _, _ => ret tt
  end.

(** The fulfilment callback of [play()] (lines 375-405). *)
Definition onPlayResolved (mid : string) : M unit :=
  updateStreamState {|
    u_connectionState := Some CONNECTED;
    u_isConnected := Some true;
    u_error := Some None;
    u_videoStats := None; u_shouldReconnect := None |} ;;
  t <- gets bitrateTimerRef ;;
  match t with
  | None =>
      updateBitrate mid ;;
      h <- setInterval mid ;;
      modify (set_bitrateTimerRef (Some h))
  | Some _ => ret tt
  end.

Definition supersededLoad : string := "interrupted by a new load request".

(** [error.message && error.message.includes('interrupted by a new load
    request')] *)
Definition isInterrupted (e : JsError) : bool :=
  match err_message e with
  | Some m => truthy_string m && includes m supersededLoad
  | None => false
  end.

(** The rejection callback of [play()] (lines 406-416). *)
Definition onPlayRejected (e : JsError) : M unit :=
  if isInterrupted e then
    log "Play interrupted, will retry automatically" Warn
  else
    updateStreamState (failWith SrcPlayback (message_or_string e)).

(** [onremotetrack] (lines 330-424).  [rd] is the render whose
    [streamState] the callback closes over. *)
Definition onremotetrack (rd : Render) (track : MediaStreamTrack) (mid : string)
                         (on : bool) : M unit :=
  if negb on then
    (match kind track with
     | VideoTrack =>
         updateStreamState (resetTo STOPPED) ;;
         stopBitrateTimer
     | AudioTrack => ret tt
     end) ;;
    log ("Track " +:+ track_id track +:+ " is off, skipping processing") Info
  else
    match kind track with
    | VideoTrack =>
        log ("Received video track: " +:+ track_id track) Info ;;
        el <- videoRefCurrent ;;
        (match srcObject el with
         | None => r <- newMediaStream ;; attachMediaStream el r
         | Some _ => ret tt
         end) ;;
        el' <- videoRefCurrent ;;
        match srcObject el' with
        | None => throw "TypeError: Cannot read properties of null (reading 'getVideoTracks')"
        | Some r =>
            existingVideoTracks <- gets (fun w => getVideoTracks (derefStream w r)) ;;
            forEach existingVideoTracks (fun t => streamModify r (removeTrack t)) ;;
            streamModify r (addTrack track) ;;
            when (negb (isConnected (r_streamState rd)))
              (log ("Playing video track: " +:+ track_id track) Info ;;
               _ <- setTimeout (KPlay mid) 100 ;;
               ret tt)
        end
    | AudioTrack => ret tt
    end.

(** [oncleanup] (lines 427-442) *)
Definition oncleanup : M unit :=
  stopBitrateTimer ;;
  v <- gets videoRef ;;
  (match v with
   | Some el => modify (set_videoRef (Some (set_srcObject None el)))
   | None => ret tt
   end) ;;
  updateStreamState (resetTo STOPPED).

(** ** Effects, restart and timers (lines 114-132, 465-562) *)

Inductive SettingValue :=
| VString (s : string)
| VNumber (n : Z)
| VBool (b : bool).

Inductive SettingsTreeAction :=
| ActUpdate (path : list string) (value : SettingValue)
| ActPerformNodeAction.

(** The template-literal rendering of a settings value. *)
Definition valueString (v : SettingValue) : string :=
  match v with
  | VString s => s
  | VNumber n => pretty n
  | VBool true => "true"
  | VBool false => "false"
  end.

(** lodash [set(draft, path, value)] on the typed part of the draft: a
    two-segment path under [stream] whose value has the type of the field.
    Any other path writes a property [PanelState] has no field for. *)
Definition lodashSet (st : PanelState) (path : list string) (v : SettingValue)
  : PanelState :=
  let s := stream st in
  match path, v with
  | ["stream"; "label"], VString x =>
      {| stream := {| label := x; visible := visible s; serverUrl := serverUrl s;
                      streamId := streamId s; debug := debug s |} |}
  | ["stream"; "visible"], VBool x =>
      {| stream := {| label := label s; visible := x; serverUrl := serverUrl s;
                      streamId := streamId s; debug := debug s |} |}
  | ["stream"; "serverUrl"], VString x =>
      {| stream := {| label := label s; visible := visible s; serverUrl := x;
                      streamId := streamId s; debug := debug s |} |}
  | ["stream"; "streamId"], VNumber x =>
      {| stream := {| label := label s; visible := visible s; serverUrl := serverUrl s;
                      streamId := x; debug := debug s |} |}
  | ["stream"; "debug"], VBool x =>
      {| stream := {| label := label s; visible := visible s; serverUrl := serverUrl s;
                      streamId := streamId s; debug := x |} |}
  | _, _ => st
  end.

(** [path[1] === "serverUrl" || path[1] === "streamId"] *)
Definition triggersReconnect (path : list string) : option string :=
  match path with
  | _ :: f :: _ =>
      if String.eqb f "serverUrl" || String.eqb f "streamId" then Some f else None
  | _ => None
  end.

(** [actionHandler] (lines 114-132) *)
Definition actionHandler (action : SettingsTreeAction) : M unit :=
  match action with
  | ActUpdate path value =>
      modify (fun w => set_state (lodashSet (state w) path value) w) ;;
      match triggersReconnect path with
      | Some f =>
          log ("Settings changed, will reconnect with new " +:+ f +:+ ": "
               +:+ valueString value) Info ;;
          updateStreamState {|
            u_connectionState := None; u_isConnected := None; u_error := None;
            u_videoStats := None; u_shouldReconnect := Some true |}
      | None => ret tt
      end
  | ActPerformNodeAction => ret tt
  end.

(** Body of the mount effect (lines 466-508).  [Janus.init] runs its
    [callback] before it returns, inside the [try].  [setupJanusLogHandlers]
    only redirects the library's own console output into [log] and is left
    out. *)
Definition mountEffect (rd : Render) : M unit :=
  updateStreamState {|
    u_connectionState := Some INITIALIZING;
    u_isConnected := None; u_error := None;
    u_videoStats := None; u_shouldReconnect := None |} ;;
  try_catch
    (call (JanusInit (debug (stream (r_state rd)))) ;;
     lib <- gets janusLib ;;
     match lib_init lib with
     | Ok _ =>
         log "Janus library initialized" Info ;;
         initJanusConnection rd
     | Throw e => throw e
     end)
    (fun e =>
       log ("Failed to initialize Janus library: " +:+ e) Error ;;
       updateStreamState (failWith SrcJanus e)).

(** Cleanup function of the mount effect (lines 510-512). *)
Definition mountEffectCleanup : M unit := cleanupJanus.

(** Body of the reconnect effect (lines 516-544).  It returns its cleanup
    function, which React keeps; here the kept cleanup is the index of the
    variables it closes over, or [None] for [() => { }]. *)
Definition reconnectEffect (rd : Render) : M unit :=
  if shouldReconnect (r_streamState rd) then
    log "Reconnecting due to settings change" Info ;;
    updateStreamState {|
      u_connectionState := None; u_isConnected := None; u_error := None;
      u_videoStats := None; u_shouldReconnect := Some false |} ;;
    stopStream ;;
    c <- gets nextVars ;;
    timeout <- setTimeout (KReconnectCleanup c rd) 500 ;;
    modify (fun w =>
      set_nextVars (S c)
        (set_reconnectVars
           (<[c := {| v_timeout := timeout; v_reconnectTimeout := None |}]>
              (reconnectVars w)) w)) ;;
    modify (set_reconnectCleanup (Some c))
  else
    modify (set_reconnectCleanup None).

(** The cleanup function returned at lines 535-540, for the run whose
    variables are at index [c]. *)
Definition reconnectEffectCleanup (c : nat) : M unit :=
  vars <- gets (fun w => reconnectVars w !! c) ;;
  match vars with
  | Some v =>
      clearTimeout (v_timeout v) ;;
      match v_reconnectTimeout v with
      | Some h => when (truthy_number h) (clearTimeout h)
      | None => ret tt
      end
  | None => ret tt
  end.

(** React runs the cleanup it holds for the reconnect effect. *)
Definition runReconnectCleanup : M unit :=
  c <- gets reconnectCleanup ;;
  match c with
  | Some i => reconnectEffectCleanup i ;; modify (set_reconnectCleanup None)
  | None => ret tt
  end.

(** [handleRestartStream] (lines 547-562): neither timer handle is kept. *)
Definition handleRestartStream (rd : Render) : M unit :=
  log "Manual stream restart requested" Info ;;
  stopStream ;;
  _ <- setTimeout (KRestartCleanup rd) 500 ;;
  ret tt.

(** What each [setTimeout] callback does when it fires. *)
Definition runContinuation (k : Continuation) : M unit :=
  match k with
  | KScrollLogs => ret tt   (* scrolls the log container; not part of the world *)
  | KPlay mid =>
      v <- gets videoRef ;;
      match v with
      | Some _ => call VideoPlay
      | None => log "Video element not found, cannot play track" Error
      end
  | KRestartCleanup rd =>
      log "Performing full Janus reconnection" Info ;;
      cleanupJanus ;;
      _ <- setTimeout (KRestartInit rd) 1000 ;;
      ret tt
  | KRestartInit rd => initJanusConnection rd
  | KReconnectCleanup c rd =>
      cleanupJanus ;;
      reconnectTimeout <- setTimeout (KReconnectInit rd) 1000 ;;
      modify (fun w =>
        set_reconnectVars
          (alter (fun v => {| v_timeout := v_timeout v;
                              v_reconnectTimeout := Some reconnectTimeout |})
                 c (reconnectVars w)) w)
  | KReconnectInit rd => initJanusConnection rd
  end.

(** The browser fires the pending timeout [h]; a cancelled or unknown
    handle fires nothing. *)
Definition fireTimeout (h : Z) : M unit :=
  t <- gets (fun w => timeouts w !! h) ;;
  match t with
  | Some (k, _) =>
      modify (fun w => set_timeouts (delete h (timeouts w)) w) ;;
      runContinuation k
  | None => ret tt
  end.

(** The browser ticks the live interval [h]. *)
Definition tickInterval (h : Z) : M unit :=
  t <- gets (fun w => intervals w !! h) ;;
  match t with
  | Some mid => updateBitrate mid
  | None => ret tt
  end.

(** React unmounts the component: the ref to the video element is detached,
    then the cleanup functions of the effects run. *)
Definition unmount : M unit :=
  modify (set_videoRef None) ;;
  mountEffectCleanup ;;
  runReconnectCleanup.

(** The browser reports new intrinsic dimensions of the video. *)
Definition videoResized (wd ht : Z) : M unit :=
  v <- gets videoRef ;;
  match v with
  | Some el =>
      modify (set_videoRef (Some {| srcObject := srcObject el;
                                    videoWidth := wd; videoHeight := ht |}))
  | None => ret tt
  end.

(** ** Events

    Everything that can happen to the mounted component: React running an
    effect or a handler, the Janus library invoking a callback, the browser
    firing a timer or settling [play()].  Callbacks created in a render carry
    that render. *)
Inductive Event :=
| EvMountEffect (rd : Render)
| EvUnmount
| EvSettingsAction (a : SettingsTreeAction)
| EvReconnectEffect (rd : Render)
| EvRestartClick (rd : Render)
| EvJanusSuccess
| EvJanusError (e : JsError)
| EvJanusDestroyed
| EvAttachSuccess (rd : Render) (h : PluginHandle)
| EvAttachError (e : JsError)
| EvMessage (msg : Message) (jsep : option string)
| EvAnswerSuccess (jsep : string)
| EvAnswerError (e : JsError)
| EvRemoteTrack (rd : Render) (track : MediaStreamTrack) (mid : string) (on : bool)
| EvPluginCleanup
| EvPlayResolved (mid : string)
| EvPlayRejected (e : JsError)
| EvTimeout (h : Z)
| EvInterval (h : Z)
| EvVideoResized (wd ht : Z).

Definition handle (ev : Event) : M unit :=
  match ev with
  | EvMountEffect rd => mountEffect rd
  | EvUnmount => unmount
  | EvSettingsAction a => actionHandler a
  | EvReconnectEffect rd => runReconnectCleanup ;; reconnectEffect rd
  | EvRestartClick rd => handleRestartStream rd
  | EvJanusSuccess => onJanusSuccess
  | EvJanusError e => onJanusError e
  | EvJanusDestroyed => onJanusDestroyed
  | EvAttachSuccess rd h => onAttachSuccess rd h
  | EvAttachError e => onAttachError e
  | EvMessage msg jsep => onmessage msg jsep
  | EvAnswerSuccess jsep => onAnswerSuccess jsep
  | EvAnswerError e => onAnswerError e
  | EvRemoteTrack rd track mid on => onremotetrack rd track mid on
  | EvPluginCleanup => oncleanup
  | EvPlayResolved mid => onPlayResolved mid
  | EvPlayRejected e => onPlayRejected e
  | EvTimeout h => fireTimeout h
  | EvInterval h => tickInterval h
  | EvVideoResized wd ht => videoResized wd ht
  end.

(** Events are handled one at a time, in the order they occur; a handler
    that throws leaves the world as it was at the throw. *)
Definition run (evs : list Event) (w : World) : World :=
  fold_left (fun w ev => exec (handle ev) w) evs w.

(** The component right after its first commit: the video element is
    mounted and empty, nothing is connected, no timer is pending. *)
Definition initialWorld (lib : JanusLibrary) (st : PanelState) : World := {|
  videoRef := Some {| srcObject := None; videoWidth := 0; videoHeight := 0 |};
  janusRef := None;
  streamingRef := None;
  bitrateTimerRef := None;
  state := st;
  streamState := initialStreamState;
  logs := [];
  timeouts := ∅;
  intervals := ∅;
  nextTimer := 1;
  mediaStreams := ∅;
  nextStream := 0%nat;
  reconnectVars := ∅;
  nextVars := 0%nat;
  reconnectCleanup := None;
  janusLib := lib;
  calls := []
|}.

(** * Reasoning about callbacks *)

(** ** Triples

    [triple P m Q E]: started in a world satisfying [P], the callback [m]
    either returns [a] in a world satisfying [Q a], or throws [e] in a world
    satisfying [E e]. *)
Definition triple {A} (P : World -> Prop) (m : M A)
    (Q : A -> World -> Prop) (E : string -> World -> Prop) : Prop :=
  forall w, P w ->
    match m w with
    | (Ok a, w') => Q a w'
    | (Throw e, w') => E e w'
    end.

(** [inv I m]: [m] keeps [I], whether it returns or throws. *)
Definition inv {A} (I : World -> Prop) (m : M A) : Prop :=
  triple I m (fun _ => I) (fun _ => I).

(** [safe m]: [m] never throws. *)
Definition safe {A} (m : M A) : Prop :=
  triple (fun _ => True) m (fun _ _ => True) (fun _ _ => False).


(** * Properties stated about the panel *)

(** ** The bitrate sampler *)

(** Every live sampler is the one whose handle is stored in
    [bitrateTimerRef]. *)
Definition TimerInv (w : World) : Prop :=
  forall h, is_Some (intervals w !! h) -> bitrateTimerRef w = Some h.

(** Timer handles are positive, as in a browser; so is the stored one. *)
Definition HandlesPositive (w : World) : Prop :=
  0 < nextTimer w /\ forall h, bitrateTimerRef w = Some h -> 0 < h.

Definition TimerOk (w : World) : Prop := TimerInv w /\ HandlesPositive w.

(** No sampler is running and none is stored. *)
Definition SamplerStopped (w : World) : Prop :=
  bitrateTimerRef w = None /\ intervals w = ∅.

(** ** A concrete session, used to exercise the statements *)

(** A library whose sessions report being connected and whose [destroy]
    throws. *)
Definition demoLibrary : JanusLibrary := {|
  lib_init := Ok tt;
  lib_new := fun server => {|
    janus_server := server;
    janus_isConnected := IsConnectedReturns true;
    janus_destroy := Throw "Error: destroy failed" |};
  lib_randomString := fun _ => "aB3dE6gH9jK2"
|}.

Definition demoSettings : PanelState := {|
  stream := {| label := "Janus Stream"; visible := true;
               serverUrl := "http://localhost:8088/janus";
               streamId := 1; debug := false |}
|}.

Definition demoRender : Render := {|
  r_state := demoSettings;
  r_streamState := initialStreamState
|}.

Definition demoHandle : PluginHandle := {|
  handle_id := 7;
  getBitrate := fun _ => Ok "512 kbits/sec"
|}.

Definition videoA : MediaStreamTrack := {| track_id := "video-a"; kind := VideoTrack |}.
Definition videoB : MediaStreamTrack := {| track_id := "video-b"; kind := VideoTrack |}.
Definition audioA : MediaStreamTrack := {| track_id := "audio-a"; kind := AudioTrack |}.

(** Mount, connect, attach, receive a video track, play it. *)
Definition demoSession : list Event := [
  EvMountEffect demoRender;
  EvJanusSuccess;
  EvAttachSuccess demoRender demoHandle;
  EvRemoteTrack demoRender videoA "v0" true;
  EvVideoResized 640 480;
  EvPlayResolved "v0"
].

Definition demoConnected : World := run demoSession (initialWorld demoLibrary demoSettings).

(** ** Observable state of the controller *)

(** What cleanup and stop are judged by: the handles the controller owns,
    the video surface with its source, the whole stream state, the live
    samplers, the media streams and the settings.  The diagnostic log, the
    record of issued calls and pending one-shot timers are not part of it. *)
Record Observable := {
  o_janusRef : option Janus;
  o_streamingRef : option PluginHandle;
  o_bitrateTimerRef : option Z;
  o_videoRef : option HTMLVideoElement;
  o_streamState : JanusStreamState;
  o_intervals : gmap Z string;
  o_mediaStreams : gmap nat (list MediaStreamTrack);
  o_state : PanelState
}.

Definition observe (w : World) : Observable := {|
  o_janusRef := janusRef w;
  o_streamingRef := streamingRef w;
  o_bitrateTimerRef := bitrateTimerRef w;
  o_videoRef := videoRef w;
  o_streamState := streamState w;
  o_intervals := intervals w;
  o_mediaStreams := mediaStreams w;
  o_state := state w
|}.

(** What the stop block leaves in [bitrateTimerRef] and among the live
    samplers. *)
Definition stoppedRef (r : option Z) : option Z :=
  match r with
  | Some h => if truthy_number h then None else Some h
  | None => None
  end.

Definition stoppedIntervals (r : option Z) (ivs : gmap Z string) : gmap Z string :=
  match r with
  | Some h => if truthy_number h then delete h ivs else ivs
  | None => ivs
  end.

(** The observable state [cleanupJanus] leaves, from the one it starts in. *)
Definition afterCleanup (o : Observable) : Observable := {|
  o_janusRef := None;
  o_streamingRef := None;
  o_bitrateTimerRef := stoppedRef (o_bitrateTimerRef o);
  o_videoRef := set_srcObject None <$> o_videoRef o;
  o_streamState := applyUpdate (o_streamState o) (resetTo DISCONNECTED);
  o_intervals := stoppedIntervals (o_bitrateTimerRef o) (o_intervals o);
  o_mediaStreams := o_mediaStreams o;
  o_state := o_state o
|}.

(** The first exception raised inside the [try] of [cleanupJanus], if any. *)
Definition cleanupFailure (j : Janus) : option string :=
  match janus_isConnected j with
  | IsConnectedThrows e => Some e
  | _ => match janus_destroy j with
         | Throw e => Some e
         | Ok _ => None
         end
  end.

Definition cleanupWarning (e : string) : LogEntry :=
  {| log_message := "Error during Janus cleanup: " +:+ e; log_type := Warn |}.

(** ** Playback rejections *)

(** [s] contains [needle] as a substring. *)
Definition contains (s needle : string) : Prop :=
  exists pre post, s = pre +:+ needle +:+ post.

(** The rejection's message contains the superseded-load phrase. *)
Definition supersededRejection (e : JsError) : Prop :=
  exists m, err_message e = Some m /\ contains m supersededLoad.

(** ** [startStream] as the specification words it *)

(** "Surfaces a plugin-sourced error and is otherwise a no-op": the stream
    state differs from the one before in its [error] field only, and
    nothing is sent. *)
Definition onlySurfacesPluginError (w w' : World) : Prop :=
  (exists e, error (streamState w') = Some e /\ source e = SrcPlugin) /\
  connectionState (streamState w') = connectionState (streamState w) /\
  isConnected (streamState w') = isConnected (streamState w) /\
  videoStats (streamState w') = videoStats (streamState w) /\
  shouldReconnect (streamState w') = shouldReconnect (streamState w) /\
  calls w' = calls w.

(** The session is up and the plugin attach is still pending. *)
Definition demoAttaching : World :=
  run [EvMountEffect demoRender; EvJanusSuccess] (initialWorld demoLibrary demoSettings).

(** The rejection browsers produce when a new load supersedes [play()],
    and one they produce when autoplay is refused. *)
Definition abortError : JsError := {|
  err_message := Some "The play() request was interrupted by a new load request.";
  err_string := "AbortError: The play() request was interrupted by a new load request."
|}.

Definition notAllowedError : JsError := {|
  err_message := Some "play() failed because the user did not interact with the document first.";
  err_string := "NotAllowedError: play() failed because the user did not interact with the document first."
|}.

(** ** The stream on the video surface *)

(** The video tracks of the media stream attached to the video surface;
    none when the element is unmounted or has no source. *)
Definition attachedVideoTracks (w : World) : list MediaStreamTrack :=
  match videoRef w with
  | Some el =>
      match srcObject el with
      | Some r => getVideoTracks (derefStream w r)
      | None => []
      end
  | None => []
  end.

(** A sequence of [onremotetrack] events that each carry an active track. *)
Definition activeTrackEvents (evs : list (Render * MediaStreamTrack * string))
  : list Event :=
  map (fun ev => EvRemoteTrack ev.1.1 ev.1.2 ev.2 true) evs.

(** The completion of each event of a run, in order. *)
Fixpoint outcomes (evs : list Event) (w : World) : list (Res unit) :=
  match evs with
  | [] => []
  | ev :: evs' => result (handle ev) w :: outcomes evs' (exec (handle ev) w)
  end.

(** ** Settings defaults *)

(** A field of the partial state as the host provided it, if it did. *)
Definition provided {A} (ps : PartialPanelState) (f : PartialStream -> option A)
  : option A :=
  p_stream ps ≫= f.

(** A field was initialized from what the host provided, or else from
    [dflt]. *)
Definition initializedFrom {A} (given : option A) (dflt value : A) : Prop :=
  match given with
  | Some v => value = v
  | None => value = dflt
  end.

(** The host provides nothing. *)
Definition emptyInitialState : PartialPanelState := {| p_stream := None |}.

(** The host provides a stream id and a label only. *)
Definition partialInitialState : PartialPanelState := {|
  p_stream := Some {| p_label := Some "Front camera"; p_visible := None;
                      p_serverUrl := None; p_streamId := Some 42;
                      p_debug := None |}
|}.

(** ** Restart and teardown *)

(** The render in which a settings edit has raised [shouldReconnect]. *)
Definition reconnectRender : Render := {|
  r_state := demoSettings;
  r_streamState := {| connectionState := CONNECTED; isConnected := true;
                      error := None; videoStats := None;
                      shouldReconnect := true |}
|}.

(** A continuation of a restart or reconnect sequence. *)
Definition isRestartContinuation (k : Continuation) : bool :=
  match k with
  | KRestartCleanup _ | KRestartInit _
  | KReconnectCleanup _ _ | KReconnectInit _ => true
  | KScrollLogs | KPlay _ => false
  end.

(** The pending restart and reconnect continuations, with their handles. *)
Definition pendingRestarts (w : World) : list (Z * Continuation) :=
  omap (fun '(h, (k, _)) => if isRestartContinuation k then Some (h, k) else None)
       (map_to_list (timeouts w)).

(** ** Presentation (lines 616-674)

    What the rendered panel shows of the stream state. *)

(** The [display] of the status overlay (line 626). *)
Definition overlayDisplay (ss : JanusStreamState) : string :=
  if isConnected ss then "none" else "block".

(** The text of the status overlay (lines 670-673). *)
Definition overlayText (ss : JanusStreamState) : string :=
  match error ss with
  | Some e => connectionLabel (connectionState ss) +:+ ": " +:+ message e
  | None => connectionLabel (connectionState ss)
  end.

(** The stats overlay, rendered only while [videoStats] is set (lines
    658-663). *)
Definition statsOverlay (ss : JanusStreamState) : option string :=
  match videoStats ss with
  | Some v =>
      Some ("Resolution: " +:+ pretty (width v) +:+ "x" +:+ pretty (height v)
            +:+ " | Bitrate: " +:+ bitrate v)
  | None => None
  end.

(** ** Error callbacks *)

(** A callback that surfaces an error the way the error callbacks of the
    session, of the attach, of the negotiation and of playback do: it
    forces Disconnected and sets the error, and touches neither the
    connected flag nor the stats, the handles, the sampler or the wire. *)
Definition surfacesError (src : ErrorSource) (msg : string) (m : M unit) : Prop :=
  forall w,
    let w' := exec m w in
    result m w = Ok tt /\
    connectionState (streamState w') = DISCONNECTED /\
    error (streamState w') = Some {| source := src; message := msg |} /\
    isConnected (streamState w') = isConnected (streamState w) /\
    videoStats (streamState w') = videoStats (streamState w) /\
    janusRef w' = janusRef w /\
    streamingRef w' = streamingRef w /\
    bitrateTimerRef w' = bitrateTimerRef w /\
    intervals w' = intervals w /\
    calls w' = calls w.

(** A server-side error as the streaming plugin reports it. *)
Definition noSuchStream : Message := {| msg_error := Some "No such mountpoint/stream 1" |}.

(** ** Sampling *)

(** [updateBitrate] has what it needs to take a sample: a mounted video
    element that reports a width, and a plugin handle. *)
Definition samplerReady (w : World) (el : HTMLVideoElement) (h : PluginHandle) : Prop :=
  videoRef w = Some el /\ videoWidth el <> 0 /\ streamingRef w = Some h.

(** A plugin handle whose [getBitrate] throws. *)
Definition brokenHandle : PluginHandle := {|
  handle_id := 9;
  getBitrate := fun _ => Throw "TypeError: config.bitrate is undefined"
|}.

(** ** Connected means shown as connected *)

(** In state Connected the connected flag is set. *)
Definition ConnectedMeansFlag (ss : JanusStreamState) : Prop :=
  connectionState ss = CONNECTED -> isConnected ss = true.

(** ** Settings edits *)


(** ** Connecting *)

(** A library whose [Janus.init] throws. *)
Definition failingLibrary : JanusLibrary := {|
  lib_init := Throw "Error: WebRTC is not supported by this browser";
  lib_new := lib_new demoLibrary;
  lib_randomString := lib_randomString demoLibrary
|}.

(** ** Play attempts *)

(** Every play attempt pending in [w'] was already pending in [w]. *)
Definition noNewPlayAttempt (w w' : World) : Prop :=
  forall h mid d,
    timeouts w' !! h = Some (KPlay mid, d) -> timeouts w !! h = Some (KPlay mid, d).

(** A render taken while the panel was connected. *)
Definition connectedRender : Render := {|
  r_state := demoSettings;
  r_streamState := {| connectionState := CONNECTED; isConnected := true;
                      error := None; videoStats := None;
                      shouldReconnect := false |}
|}.

(** ** The log *)

(** The log of [w'] is the log of [w] with entries added at the end. *)
Definition logExtends (w w' : World) : Prop :=
  exists added, logs w' = (logs w ++ added)%list.
Section Rules.
Context {A B : Type}.
Implicit Types (P : World -> Prop) (E : string -> World -> Prop).

Lemma triple_ret P (a : A) (Q : A -> World -> Prop) E :
  (forall w, P w -> Q a w) -> triple P (ret a) Q E.
Proof. intros H w Hw. exact (H w Hw). Qed.

Lemma triple_throw P e (Q : A -> World -> Prop) E :
  (forall w, P w -> E e w) -> triple P (throw e) Q E.
Proof. intros H w Hw. exact (H w Hw). Qed.

Lemma triple_gets P (f : World -> A) (Q : A -> World -> Prop) E :
  (forall w, P w -> Q (f w) w) -> triple P (gets f) Q E.
Proof. intros H w Hw. exact (H w Hw). Qed.

Lemma triple_modify P (f : World -> World) (Q : unit -> World -> Prop) E :
  (forall w, P w -> Q tt (f w)) -> triple P (modify f) Q E.
Proof. intros H w Hw. exact (H w Hw). Qed.

Lemma triple_bind P (m : M A) (k : A -> M B) R (Q : B -> World -> Prop) E :
  triple P m R E -> (forall a, triple (R a) (k a) Q E) -> triple P (bind m k) Q E.
Proof.
  intros Hm Hk w Hw. unfold bind. specialize (Hm w Hw).
  destruct (m w) as [[a|e] w']; [exact (Hk a w' Hm) | exact Hm].
Qed.

Lemma triple_try_catch P (m : M A) (h : string -> M A) Q E' E :
  triple P m Q E' -> (forall e, triple (E' e) (h e) Q E) ->
  triple P (try_catch m h) Q E.
Proof.
  intros Hm Hh w Hw. unfold try_catch. specialize (Hm w Hw).
  destruct (m w) as [[a|e] w']; [exact Hm | exact (Hh e w' Hm)].
Qed.

Lemma triple_conseq P P' (m : M A) (Q Q' : A -> World -> Prop) E E' :
  triple P m Q E ->
  (forall w, P' w -> P w) ->
  (forall a w, Q a w -> Q' a w) ->
  (forall e w, E e w -> E' e w) ->
  triple P' m Q' E'.
Proof.
  intros Hm HP HQ HE w Hw. specialize (Hm w (HP w Hw)).
  destruct (m w) as [[a|e] w']; [exact (HQ _ _ Hm) | exact (HE _ _ Hm)].
Qed.

Lemma triple_conj P P' (m : M A) (Q Q' : A -> World -> Prop) E E' :
  triple P m Q E -> triple P' m Q' E' ->
  triple (fun w => P w /\ P' w) m
         (fun a w => Q a w /\ Q' a w) (fun e w => E e w /\ E' e w).
Proof.
  intros H H' w [Hw Hw']. specialize (H w Hw). specialize (H' w Hw').
  destruct (m w) as [[a|e] w']; split; assumption.
Qed.
End Rules.

Section InvRules.
Context {A B : Type} (I : World -> Prop).

Lemma inv_ret (a : A) : inv I (ret a).
Proof. apply triple_ret; auto. Qed.

Lemma inv_throw e : inv I (@throw A e).
Proof. apply triple_throw; auto. Qed.

Lemma inv_gets (f : World -> A) : inv I (gets f).
Proof. apply triple_gets; auto. Qed.

Lemma inv_modify f : (forall w, I w -> I (f w)) -> inv I (modify f).
Proof. intros H. apply triple_modify; auto. Qed.

Lemma inv_bind (m : M A) (k : A -> M B) :
  inv I m -> (forall a, inv I (k a)) -> inv I (bind m k).
Proof. intros Hm Hk. eapply triple_bind; [exact Hm | exact Hk]. Qed.

Lemma inv_try_catch (m : M A) h :
  inv I m -> (forall e, inv I (h e)) -> inv I (try_catch m h).
Proof. intros Hm Hh. eapply triple_try_catch; [exact Hm | exact Hh]. Qed.

Lemma inv_when b m : inv I m -> inv I (when b m).
Proof. destruct b; [auto | intros _; apply triple_ret; auto]. Qed.

Lemma inv_forEach (xs : list A) f :
  (forall x, inv I (f x)) -> inv I (forEach xs f).
Proof.
  intros Hf. induction xs as [|x xs IH]; cbn [forEach].
  - apply triple_ret; auto.
  - eapply triple_bind; [apply Hf | intros ?; exact IH].
Qed.

Lemma inv_exec (m : M A) w : inv I m -> I w -> I (exec m w).
Proof.
  intros Hm Hw. specialize (Hm w Hw). unfold exec.
  destruct (m w) as [[a|e] w']; exact Hm.
Qed.
End InvRules.

Section SafeRules.
Context {A B : Type}.

Lemma safe_ret (a : A) : safe (ret a).
Proof. apply triple_ret; auto. Qed.

Lemma safe_gets (f : World -> A) : safe (gets f).
Proof. apply triple_gets; auto. Qed.

Lemma safe_modify f : safe (modify f).
Proof. apply triple_modify; auto. Qed.

Lemma safe_bind (m : M A) (k : A -> M B) :
  safe m -> (forall a, safe (k a)) -> safe (bind m k).
Proof. intros Hm Hk. eapply triple_bind; [exact Hm | exact Hk]. Qed.

(** A [try] whose handler never throws never throws. *)
Lemma safe_try_catch (m : M A) h :
  (forall e, safe (h e)) -> safe (try_catch m h).
Proof.
  intros Hh. eapply triple_try_catch with (E' := fun _ _ => True); [| exact Hh].
  intros w _. destruct (m w) as [[a|e] w']; exact Logic.I.
Qed.

Lemma safe_when b m : safe m -> safe (when b m).
Proof. destruct b; [auto | intros _; apply triple_ret; auto]. Qed.

Lemma safe_forEach (xs : list A) f :
  (forall x, safe (f x)) -> safe (forEach xs f).
Proof.
  intros Hf. induction xs as [|x xs IH]; cbn [forEach].
  - apply triple_ret; auto.
  - eapply triple_bind; [apply Hf | intros ?; exact IH].
Qed.

(** A callback that never throws returns, and [exec] is its final world. *)
Lemma safe_result (m : M A) w : safe m -> exists a, m w = (Ok a, exec m w).
Proof.
  intros Hm. specialize (Hm w Logic.I). unfold exec.
  destruct (m w) as [[a|e] w']; [eauto | contradiction].
Qed.

Lemma inv_safe_triple (I : World -> Prop) (m : M A) E :
  inv I m -> safe m -> triple I m (fun _ => I) E.
Proof.
  intros Hi Hs w Hw. specialize (Hi w Hw). specialize (Hs w Logic.I).
  destruct (m w) as [[a|e] w']; [exact Hi | contradiction].
Qed.

(** What a triple says about [exec] and [result]. *)
Lemma triple_exec P (m : M A) Q w :
  triple P m Q (fun _ _ => False) -> P w ->
  exists a, result m w = Ok a /\ Q a (exec m w).
Proof.
  intros Hm Hw. specialize (Hm w Hw). unfold exec, result.
  destruct (m w) as [[a|e] w']; [eauto | contradiction].
Qed.

End SafeRules.

Lemma inv_and {A} (I J : World -> Prop) (m : M A) :
  inv I m -> inv J m -> inv (fun w => I w /\ J w) m.
Proof. intros HI HJ. exact (triple_conj _ _ _ _ _ _ _ HI HJ). Qed.

(** Sequencing after a callback that never throws. *)
Lemma exec_seq {B} (m : M unit) (k : M B) w :
  safe m -> exec (m ;; k) w = exec k (exec m w).
Proof.
  intros Hm. destruct (safe_result m w Hm) as [[] Heq].
  unfold exec at 1, bind. rewrite Heq. reflexivity.
Qed.

(** The head constant of an application. *)
Ltac head_of t :=
  lazymatch t with
  | ?f _ => head_of f
  | _ => t
  end.

(** Walks the syntax of a callback, leaving one goal [forall w, I w -> I (f w)]
    per [modify f], which [leaf] must close.  Lemmas in the hint database
    [js] are tried on a named callback before it is unfolded. *)
Create HintDb js.

Ltac inv_walk leaf :=
  lazymatch goal with
  | |- inv _ (ret _) => apply inv_ret
  | |- inv _ (throw _) => apply inv_throw
  | |- inv _ (gets _) => apply inv_gets
  | |- inv _ (modify _) => apply inv_modify; leaf
  | |- inv _ (bind _ _) => apply inv_bind; [inv_walk leaf | intros ?; inv_walk leaf]
  | |- inv _ (try_catch _ _) =>
      apply inv_try_catch; [inv_walk leaf | intros ?; inv_walk leaf]
  | |- inv _ (when _ _) => apply inv_when; inv_walk leaf
  | |- inv _ (forEach _ _) => apply inv_forEach; intros ?; inv_walk leaf
  | |- inv _ (match ?x with _ => _ end) => destruct x; inv_walk leaf
  | |- inv _ (let _ := _ in _) => cbv zeta; inv_walk leaf
  | |- inv _ ?m =>
      first [ solve [auto with js]
            | let h := head_of m in unfold h; inv_walk leaf ]
  end.


(** The same walk for [safe]; it fails on a [throw] outside a [try]. *)
Ltac safe_walk :=
  lazymatch goal with
  | |- safe (ret _) => apply safe_ret
  | |- safe (gets _) => apply safe_gets
  | |- safe (modify _) => apply safe_modify
  | |- safe (bind _ _) => apply safe_bind; [safe_walk | intros ?; safe_walk]
  | |- safe (try_catch _ _) => apply safe_try_catch; intros ?; safe_walk
  | |- safe (when _ _) => apply safe_when; safe_walk
  | |- safe (forEach _ _) => apply safe_forEach; intros ?; safe_walk
  | |- safe (match ?x with _ => _ end) => destruct x; safe_walk
  | |- safe (let _ := _ in _) => cbv zeta; safe_walk
  | |- safe ?m =>
      first [ solve [auto with js]
            | let h := head_of m in unfold h; safe_walk ]
  end.

(** The leaf for an invariant that the updated field does not occur in. *)
Ltac untouched := let w := fresh "w" in let H := fresh "H" in intros w H; exact H.

(** ** Callbacks that never throw *)

Lemma log_safe msg ty : safe (log msg ty).
Proof. safe_walk. Qed.
#[export] Hint Resolve log_safe : js.

Lemma updateStreamState_safe u : safe (updateStreamState u).
Proof. safe_walk. Qed.
#[export] Hint Resolve updateStreamState_safe : js.

Lemma stopBitrateTimer_safe : safe stopBitrateTimer.
Proof. safe_walk. Qed.
#[export] Hint Resolve stopBitrateTimer_safe : js.

Lemma cleanupJanus_safe : safe cleanupJanus.
Proof. safe_walk. Qed.

Lemma stopStream_safe : safe stopStream.
Proof. safe_walk. Qed.

Lemma startStream_safe rd : safe (startStream rd).
Proof. safe_walk. Qed.

Lemma updateBitrate_safe mid : safe (updateBitrate mid).
Proof. safe_walk. Qed.
#[export] Hint Resolve cleanupJanus_safe stopStream_safe startStream_safe
  updateBitrate_safe : js.

Lemma onPlayResolved_safe mid : safe (onPlayResolved mid).
Proof. safe_walk. Qed.

Lemma onPlayRejected_safe e : safe (onPlayRejected e).
Proof. safe_walk. Qed.

Lemma oncleanup_safe : safe oncleanup.
Proof. safe_walk. Qed.
#[export] Hint Resolve onPlayResolved_safe onPlayRejected_safe oncleanup_safe : js.

(** ** The bitrate sampler: at most one live timer *)

Lemma TimerInv_size w : TimerInv w -> (size (intervals w) <= 1)%nat.
Proof.
  unfold TimerInv. generalize (bitrateTimerRef w) as r.
  generalize (intervals w) as m. intros m.
  induction m as [|i x m Hi _ _] using map_first_key_ind; intros r H.
  - rewrite map_size_empty. lia.
  - rewrite map_size_insert_None by exact Hi.
    assert (Hr : r = Some i).
    { apply H. rewrite lookup_insert_eq. eauto. }
    assert (Hm : m = ∅).
    { apply map_empty. intros j.
      destruct (m !! j) as [y|] eqn:Hj; [|reflexivity].
      assert (j <> i) by (intros ->; congruence).
      assert (r = Some j) as Hr'.
      { apply H. rewrite lookup_insert_ne by congruence. rewrite Hj. eauto. }
      congruence. }
    subst m. rewrite map_size_empty. lia.
Qed.

Lemma setTimeout_TimerOk k d : inv TimerOk (setTimeout k d).
Proof.
  intros w [Hi [Hn Hr]]. cbn. split; [exact Hi | split; [cbn; lia | exact Hr]].
Qed.

Lemma clearTimer_TimerOk h : inv TimerOk (clearTimer h).
Proof.
  intros w [Hi Hp]. cbn. split; [| exact Hp].
  intros h' [x Hx]. cbn in Hx. apply Hi.
  apply lookup_delete_Some in Hx as [_ Hx]. eauto.
Qed.
#[export] Hint Resolve setTimeout_TimerOk clearTimer_TimerOk : js.

(** Stopping the sampler in a well-formed world leaves none running. *)
Lemma stopBitrateTimer_stops :
  triple TimerOk stopBitrateTimer
         (fun _ w => TimerOk w /\ SamplerStopped w) (fun _ _ => False).
Proof.
  intros w [Hi [Hn Hr]]. unfold stopBitrateTimer, bind, gets. cbn.
  destruct (bitrateTimerRef w) as [h|] eqn:Hb.
  - assert (Hh : truthy_number h = true).
    { unfold truthy_number. specialize (Hr h eq_refl).
      destruct (Z.eqb_spec h 0); [lia | reflexivity]. }
    rewrite Hh. cbn.
    assert (Hd : delete h (intervals w) = ∅).
    { apply map_empty. intros j. apply lookup_delete_None.
      destruct (decide (h = j)) as [|Hne]; [by left | right].
      destruct (intervals w !! j) eqn:Hj; [|reflexivity].
      specialize (Hi j (ex_intro _ _ Hj)). congruence. }
    split; [split; [| split; [exact Hn | intros ? [=]]]
           | split; [reflexivity | exact Hd]].
    intros h' [x Hx]. cbn in Hx. rewrite Hd in Hx. by rewrite lookup_empty in Hx.
  - cbn.
    split; [split; [exact Hi | split; [exact Hn | intros ? ?; congruence]]
           | split; [exact Hb |]].
    apply map_empty. intros j. destruct (intervals w !! j) eqn:Hj; [|reflexivity].
    specialize (Hi j (ex_intro _ _ Hj)). congruence.
Qed.

Lemma stopBitrateTimer_TimerOk : inv TimerOk stopBitrateTimer.
Proof.
  eapply triple_conseq; [exact stopBitrateTimer_stops | auto | | intros ? ? []].
  intros _ w [H _]; exact H.
Qed.
#[export] Hint Resolve stopBitrateTimer_TimerOk : js.

Lemma updateStreamState_TimerOk u : inv TimerOk (updateStreamState u).
Proof. inv_walk untouched. Qed.

Lemma updateBitrate_TimerOk mid : inv TimerOk (updateBitrate mid).
Proof. inv_walk untouched. Qed.

Lemma updateBitrate_keeps_unset mid :
  inv (fun w => bitrateTimerRef w = None) (updateBitrate mid).
Proof. inv_walk untouched. Qed.

(** Check-before-create: the fulfilment callback starts a sampler only when
    no handle is stored, and then stores the new handle. *)
Lemma onPlayResolved_TimerOk mid : inv TimerOk (onPlayResolved mid).
Proof.
  unfold onPlayResolved.
  apply inv_bind; [apply updateStreamState_TimerOk | intros _].
  eapply triple_bind with (R := fun t w => TimerOk w /\ bitrateTimerRef w = t).
  { apply triple_gets. intros w Hw. split; [exact Hw | reflexivity]. }
  intros [h|].
  { apply triple_ret. intros w [Hw _]. exact Hw. }
  eapply triple_bind
    with (R := fun _ w => TimerOk w /\ bitrateTimerRef w = None).
  { eapply triple_conseq;
      [ exact (inv_and _ _ _ (updateBitrate_TimerOk mid) (updateBitrate_keeps_unset mid))
      | auto | auto | intros e w [H _]; exact H ]. }
  intros _ w [[Hi [Hn Hr]] Hnone]. cbn.
  split; [| split; [cbn; lia | cbn; intros h [= <-]; exact Hn]].
  intros h [x Hx]. cbn in *.
  destruct (decide (nextTimer w = h)) as [->|Hne]; [reflexivity|].
  rewrite lookup_insert_ne in Hx by exact Hne.
  specialize (Hi h (ex_intro _ _ Hx)). congruence.
Qed.
#[export] Hint Resolve onPlayResolved_TimerOk : js.

Lemma handle_TimerOk ev : inv TimerOk (handle ev).
Proof. destruct ev; cbn [handle]; inv_walk untouched. Qed.

Lemma initialWorld_TimerOk lib st : TimerOk (initialWorld lib st).
Proof.
  split; [| split; [cbn; lia | intros h [=]]].
  intros h [x Hx]. cbn in Hx. by rewrite lookup_empty in Hx.
Qed.

Lemma run_inv (I : World -> Prop) evs w :
  (forall ev, inv I (handle ev)) -> I w -> I (run evs w).
Proof.
  intros Hh. revert w. induction evs as [|ev evs IH]; intros w Hw; [exact Hw|].
  cbn [run fold_left]. apply IH. apply inv_exec; [apply Hh | exact Hw].
Qed.

Lemma run_TimerOk lib st evs : TimerOk (run evs (initialWorld lib st)).
Proof. apply run_inv; [exact handle_TimerOk | apply initialWorld_TimerOk]. Qed.

(** What runs after the stop block keeps the sampler stopped. *)
Lemma stays_stopped {A} (post : M A) :
  inv SamplerStopped post -> safe post ->
  triple (fun w => TimerOk w /\ SamplerStopped w) post
         (fun _ => SamplerStopped) (fun _ _ => False).
Proof.
  intros Hi Hs.
  apply (triple_conseq _ _ _ _ _ _ _ (inv_safe_triple _ _ (fun _ _ => False) Hi Hs)).
  - intros w [_ H]; exact H.
  - intros _ w H; exact H.
  - intros _ w H; exact H.
Qed.

Lemma cleanupJanus_stops_sampler :
  triple TimerOk cleanupJanus (fun _ => SamplerStopped) (fun _ _ => False).
Proof.
  unfold cleanupJanus.
  eapply triple_bind;
    [ apply inv_safe_triple; [inv_walk untouched | safe_walk] | intros ? ].
  eapply triple_bind; [exact stopBitrateTimer_stops | intros ?].
  apply stays_stopped; [inv_walk untouched | safe_walk].
Qed.

Lemma oncleanup_stops_sampler :
  triple TimerOk oncleanup (fun _ => SamplerStopped) (fun _ _ => False).
Proof.
  unfold oncleanup.
  eapply triple_bind; [exact stopBitrateTimer_stops | intros ?].
  apply stays_stopped; [inv_walk untouched | safe_walk].
Qed.

Lemma inactive_video_stops_sampler rd track mid :
  kind track = VideoTrack ->
  triple TimerOk (onremotetrack rd track mid false)
         (fun _ => SamplerStopped) (fun _ _ => False).
Proof.
  intros Hk. unfold onremotetrack. cbn [negb]. rewrite Hk.
  eapply triple_bind with (R := fun _ w => TimerOk w /\ SamplerStopped w).
  - eapply triple_bind;
      [ apply inv_safe_triple; [apply updateStreamState_TimerOk | auto with js]
      | intros ?; exact stopBitrateTimer_stops ].
  - intros ?. apply stays_stopped; [inv_walk untouched | safe_walk].
Qed.

(** With a handle stored, the fulfilment callback starts no sampler. *)
Lemma onPlayResolved_checks_first mid h ivs :
  inv (fun w => bitrateTimerRef w = Some h /\ intervals w = ivs) (onPlayResolved mid).
Proof.
  unfold onPlayResolved.
  apply inv_bind; [inv_walk untouched | intros ?].
  eapply triple_bind
    with (R := fun t w => (bitrateTimerRef w = Some h /\ intervals w = ivs)
                          /\ t = bitrateTimerRef w).
  { apply triple_gets. intros w Hw. split; [exact Hw | reflexivity]. }
  intros [h'|].
  - apply triple_ret. intros w [Hw _]. exact Hw.
  - intros w [[Hw _] Hn]. congruence.
Qed.

(** C4.  At every instant at most one bitrate-sampling timer is live.  In
    the world reached by any sequence of events from the initial one:
    at most one [setInterval] timer is live, and a live one is the timer
    whose handle is stored; the fulfilment callback of [play()] starts no
    sampler while a handle is stored (check-before-create); and each of the
    three paths that stop sampling ([cleanupJanus], [oncleanup], an inactive
    video track) leaves no timer live and no handle stored. *)
Theorem at_most_one_bitrate_timer (lib : JanusLibrary) (st : PanelState)
    (evs : list Event) :
  let w := run evs (initialWorld lib st) in
  (size (intervals w) <= 1)%nat /\
  (forall h, is_Some (intervals w !! h) -> bitrateTimerRef w = Some h) /\
  (forall mid, is_Some (bitrateTimerRef w) ->
     intervals (exec (onPlayResolved mid) w) = intervals w) /\
  SamplerStopped (exec cleanupJanus w) /\
  SamplerStopped (exec oncleanup w) /\
  (forall rd track mid, kind track = VideoTrack ->
     SamplerStopped (exec (onremotetrack rd track mid false) w)).
Proof.
  intros w. pose proof (run_TimerOk lib st evs) as Hok. fold w in Hok.
  assert (Hstop : forall A (m : M A),
            triple TimerOk m (fun _ => SamplerStopped) (fun _ _ => False) ->
            SamplerStopped (exec m w)).
  { intros A m Hm. destruct (triple_exec _ _ _ w Hm Hok) as [a [_ H]]. exact H. }
  split; [apply TimerInv_size, Hok | split; [exact (proj1 Hok) | split]].
  - intros mid [h Hh].
    exact (proj2 (inv_exec _ _ w (onPlayResolved_checks_first mid h (intervals w))
                           (conj Hh eq_refl))).
  - split; [apply Hstop, cleanupJanus_stops_sampler | split].
    + apply Hstop, oncleanup_stops_sampler.
    + intros rd track mid Hk. apply Hstop, inactive_video_stops_sampler, Hk.
Qed.

Lemma at_most_one_bitrate_timer_witness :
  is_Some (intervals demoConnected !! 13) /\
  bitrateTimerRef demoConnected = Some 13 /\
  intervals (exec (onPlayResolved "v1") demoConnected) = intervals demoConnected /\
  SamplerStopped (exec (onremotetrack demoRender videoA "v0" false) demoConnected).
Proof.
  unfold demoConnected.
  generalize (at_most_one_bitrate_timer demoLibrary demoSettings demoSession).
  cbv zeta.
  assert (Hl : is_Some (intervals (run demoSession (initialWorld demoLibrary demoSettings))
                          !! 13)) by (vm_compute; eauto).
  revert Hl.
  generalize (run demoSession (initialWorld demoLibrary demoSettings)) as w.
  intros w Hl (_ & Hlive & Hcheck & _ & _ & Hoff).
  split; [exact Hl | split; [exact (Hlive 13 Hl) | split]].
  - apply Hcheck. rewrite (Hlive 13 Hl). eauto.
  - apply Hoff. reflexivity.
Defined.

(** ** Stepping through straight-line code *)

Lemma exec_gets {A B} (f : World -> A) (k : A -> M B) w :
  exec (x <- gets f ;; k x) w = exec (k (f w)) w.
Proof. reflexivity. Qed.

Lemma exec_modify {B} (f : World -> World) (k : M B) w :
  exec (modify f ;; k) w = exec k (f w).
Proof. reflexivity. Qed.

Lemma safe_unit_result (m : M unit) w : safe m -> result m w = Ok tt.
Proof.
  intros Hm. destruct (safe_result m w Hm) as [[] Heq].
  unfold result. rewrite Heq. reflexivity.
Qed.

(** [p (exec m w) = p w] for a field [p] that [m] does not write. *)
Ltac frame :=
  lazymatch goal with
  | |- ?p (exec ?m ?w) = _ =>
      apply (inv_exec (fun w' => p w' = p w) m w); [inv_walk untouched | reflexivity]
  end.

Ltac frame_rw :=
  match goal with
  | |- context [?p (exec ?m ?w)] =>
      let H := fresh in
      assert (H : p (exec m w) = p w) by frame;
      rewrite H; clear H
  end.

(** ** [cleanupJanus] *)

Lemma stopBitrateTimer_effect w :
  bitrateTimerRef (exec stopBitrateTimer w) = stoppedRef (bitrateTimerRef w) /\
  intervals (exec stopBitrateTimer w) = stoppedIntervals (bitrateTimerRef w) (intervals w).
Proof.
  unfold stopBitrateTimer. rewrite exec_gets. unfold stoppedRef, stoppedIntervals.
  destruct (bitrateTimerRef w) as [h|] eqn:Hb; [destruct (truthy_number h)|];
    cbn; auto.
Qed.

(** The world after [cleanupJanus], block by block. *)
Lemma cleanupJanus_exec w :
  exec cleanupJanus w =
  let w1 := exec (log "Cleaning up Janus resources" Info) w in
  let w2 := exec stopBitrateTimer w1 in
  let w3 := exec (match janusRef w2 with
                  | Some janus =>
                      try_catch
                        (connected <- janusIsConnected janus ;;
                         when connected
                           (log "Forcing Janus disconnection before cleanup" Info) ;;
                         janusDestroy janus)
                        (fun err => log ("Error during Janus cleanup: " +:+ err) Warn) ;;
                      modify (set_janusRef None)
                  | None => ret tt
                  end) w2 in
  let w4 := set_streamingRef None w3 in
  let w5 := exec (match videoRef w4 with
                  | Some el =>
                      modify (set_videoRef (Some (set_srcObject None el))) ;;
                      call VideoLoad
                  | None => ret tt
                  end) w4 in
  exec (updateStreamState (resetTo DISCONNECTED)) w5.
Proof.
  unfold cleanupJanus. cbv zeta.
  rewrite exec_seq by safe_walk. rewrite exec_seq by safe_walk.
  rewrite exec_gets. rewrite exec_seq by safe_walk.
  rewrite exec_modify. rewrite exec_gets. rewrite exec_seq by safe_walk.
  reflexivity.
Qed.

Lemma updateStreamState_effect u w :
  streamState (exec (updateStreamState u) w) = applyUpdate (streamState w) u.
Proof.
  unfold updateStreamState. rewrite exec_gets.
  rewrite exec_seq by safe_walk. rewrite exec_seq by safe_walk.
  reflexivity.
Qed.

Lemma cleanupJanus_observe w :
  observe (exec cleanupJanus w) = afterCleanup (observe w).
Proof.
  rewrite cleanupJanus_exec. cbv zeta.
  set (w1 := exec (log _ _) w).
  set (w2 := exec stopBitrateTimer w1).
  match goal with |- context [exec ?m w2] => set (w3 := exec m w2) end.
  set (w4 := set_streamingRef None w3).
  match goal with |- context [exec ?m w4] => set (w5 := exec m w4) end.
  destruct (stopBitrateTimer_effect w1) as [Href Hivs]. fold w2 in Href, Hivs.
  assert (H1r : bitrateTimerRef w1 = bitrateTimerRef w) by (subst w1; frame).
  assert (H1i : intervals w1 = intervals w) by (subst w1; frame).
  assert (H1v : videoRef w1 = videoRef w) by (subst w1; frame).
  assert (H2v : videoRef w2 = videoRef w1) by (subst w2; frame).
  assert (H3v : videoRef w3 = videoRef w2) by (subst w3; frame).
  unfold observe, afterCleanup;
    cbn [o_janusRef o_streamingRef o_bitrateTimerRef o_videoRef o_streamState
         o_intervals o_mediaStreams o_state].
  f_equal.
  - frame_rw. unfold w5. frame_rw. unfold w4. cbn [janusRef set_streamingRef].
    unfold w3. destruct (janusRef w2) as [j|] eqn:Hj.
    + rewrite exec_seq by safe_walk. reflexivity.
    + exact Hj.
  - frame_rw. unfold w5. frame_rw. reflexivity.
  - frame_rw. unfold w5. frame_rw. unfold w4. cbn [bitrateTimerRef set_streamingRef].
    unfold w3. frame_rw. congruence.
  - frame_rw. unfold w5.
    assert (Hv : videoRef w4 = videoRef w) by (unfold w4; cbn; congruence).
    rewrite Hv. destruct (videoRef w) as [el|]; [reflexivity | exact Hv].
  - rewrite updateStreamState_effect. f_equal.
    unfold w5. frame_rw. unfold w4. cbn [streamState set_streamingRef].
    unfold w3. frame_rw. unfold w2. frame_rw. unfold w1. frame.
  - frame_rw. unfold w5. frame_rw. unfold w4. cbn [intervals set_streamingRef].
    unfold w3. frame_rw. congruence.
  - frame_rw. unfold w5. frame_rw. unfold w4. cbn [mediaStreams set_streamingRef].
    unfold w3. frame_rw. unfold w2. frame_rw. unfold w1. frame.
  - frame_rw. unfold w5. frame_rw. unfold w4. cbn [state set_streamingRef].
    unfold w3. frame_rw. unfold w2. frame_rw. unfold w1. frame.
Qed.

Lemma afterCleanup_idempotent o : afterCleanup (afterCleanup o) = afterCleanup o.
Proof.
  unfold afterCleanup. cbn. f_equal.
  - destruct (o_bitrateTimerRef o) as [h|]; cbn; [|reflexivity].
    destruct (truthy_number h) eqn:Hh; cbn; [reflexivity | by rewrite Hh].
  - destruct (o_videoRef o); reflexivity.
  - destruct (o_bitrateTimerRef o) as [h|]; cbn; [|reflexivity].
    destruct (truthy_number h) eqn:Hh; cbn; [reflexivity | by rewrite Hh].
Qed.

(** Without a session, [cleanupJanus] calls nothing but the reload of a
    mounted video element. *)
Lemma cleanupJanus_calls_without_session w :
  janusRef w = None ->
  calls (exec cleanupJanus w) =
  (calls w ++ match videoRef w with Some _ => [VideoLoad] | None => [] end)%list.
Proof.
  intros Hj. rewrite cleanupJanus_exec. cbv zeta.
  set (w1 := exec (log _ _) w).
  set (w2 := exec stopBitrateTimer w1).
  assert (Hj2 : janusRef w2 = None).
  { unfold w2. frame_rw. unfold w1. frame_rw. exact Hj. }
  assert (Hv2 : videoRef w2 = videoRef w).
  { unfold w2. frame_rw. unfold w1. frame. }
  assert (Hc2 : calls w2 = calls w).
  { unfold w2. frame_rw. unfold w1. frame. }
  rewrite Hj2. frame_rw.
  change (exec (ret tt) w2) with w2.
  cbn [videoRef set_streamingRef]. rewrite Hv2.
  destruct (videoRef w) as [el|]; cbn; rewrite Hc2; [reflexivity | by rewrite app_nil_r].
Qed.

Ltac log_grows :=
  let w := fresh "w" in
  let H := fresh "H" in
  intros w H; first [exact H | cbn [logs set_logs]; apply in_or_app; left; exact H].

(** The handler of the [try] logs the first exception raised in it. *)
Lemma cleanup_failure_logged j e w :
  cleanupFailure j = Some e ->
  In (cleanupWarning e)
     (logs (exec (try_catch
                    (connected <- janusIsConnected j ;;
                     when connected
                       (log "Forcing Janus disconnection before cleanup" Info) ;;
                     janusDestroy j)
                    (fun err => log ("Error during Janus cleanup: " +:+ err) Warn)) w)).
Proof.
  unfold cleanupFailure, janusIsConnected, janusDestroy. intros Hf.
  destruct (janus_isConnected j) as [|[]|e']; destruct (janus_destroy j) as [[]|e''];
    inversion Hf; subst;
    cbn [exec try_catch bind ret throw when log call modify gets setTimeout
         fst snd logs set_logs set_nextTimer set_timeouts set_calls];
    apply in_or_app; right; left; reflexivity.
Qed.

(** C3.  [cleanupJanus] is idempotent on the observable state: a second
    call in a row returns normally and leaves the session handle, plugin
    handle, bitrate timer handle and live samplers, video surface and its
    source, stream state (connection state, connected flag, stats, error),
    media streams and settings exactly as the first call left them.  It is
    safe without a session: it returns normally from every world, and when
    no session exists it issues no call to the library (only the reload of
    a mounted video element). *)
Theorem cleanup_idempotent (w : World) :
  result cleanupJanus w = Ok tt /\
  result cleanupJanus (exec cleanupJanus w) = Ok tt /\
  observe (exec cleanupJanus (exec cleanupJanus w)) = observe (exec cleanupJanus w) /\
  (janusRef w = None ->
   janusRef (exec cleanupJanus w) = None /\
   calls (exec cleanupJanus w) =
   (calls w ++ match videoRef w with Some _ => [VideoLoad] | None => [] end)%list).
Proof.
  split; [apply safe_unit_result, cleanupJanus_safe | split].
  { apply safe_unit_result, cleanupJanus_safe. }
  split.
  - rewrite !cleanupJanus_observe. apply afterCleanup_idempotent.
  - intros Hj. split; [| exact (cleanupJanus_calls_without_session w Hj)].
    exact (f_equal o_janusRef (cleanupJanus_observe w)).
Qed.

Lemma cleanup_idempotent_witness :
  let w := initialWorld demoLibrary demoSettings in
  janusRef (exec cleanupJanus w) = None /\
  calls (exec cleanupJanus w) = [VideoLoad].
Proof.
  exact (proj2 (proj2 (proj2 (cleanup_idempotent (initialWorld demoLibrary demoSettings))))
               eq_refl).
Defined.

(** C8.  [cleanupJanus] completes whatever fails inside its [try].  When
    the session's [destroy] (or the [isConnected] probe before it) throws
    [e], the callback still returns normally, [e] is logged as a warning,
    the session and plugin-handle references are cleared, the video
    surface loses its source and is reloaded, and the stream state is
    Disconnected with the connected flag and the stats cleared. *)
Theorem cleanup_completes_on_failure (w : World) (j : Janus) (e : string) :
  janusRef w = Some j ->
  cleanupFailure j = Some e ->
  let w' := exec cleanupJanus w in
  result cleanupJanus w = Ok tt /\
  In (cleanupWarning e) (logs w') /\
  janusRef w' = None /\
  streamingRef w' = None /\
  videoRef w' = set_srcObject None <$> videoRef w /\
  (is_Some (videoRef w) -> last (calls w') = Some VideoLoad) /\
  connectionState (streamState w') = DISCONNECTED /\
  isConnected (streamState w') = false /\
  videoStats (streamState w') = None.
Proof.
  intros Hj Hf w'. pose proof (cleanupJanus_observe w) as Hobs. fold w' in Hobs.
  split; [apply safe_unit_result, cleanupJanus_safe | split].
  { unfold w'. rewrite cleanupJanus_exec. cbv zeta.
    set (w1 := exec (log _ _) w).
    set (w2 := exec stopBitrateTimer w1).
    assert (Hj2 : janusRef w2 = Some j).
    { unfold w2. frame_rw. unfold w1. frame_rw. exact Hj. }
    rewrite Hj2.
    apply (inv_exec (fun w => In (cleanupWarning e) (logs w))); [inv_walk log_grows |].
    apply (inv_exec (fun w => In (cleanupWarning e) (logs w))); [inv_walk log_grows |].
    cbn [logs set_streamingRef]. rewrite exec_seq by safe_walk.
    apply cleanup_failure_logged, Hf. }
  split; [exact (f_equal o_janusRef Hobs) | split].
  { exact (f_equal o_streamingRef Hobs). }
  split; [exact (f_equal o_videoRef Hobs) | split].
  { intros [el Hv]. unfold w'. rewrite cleanupJanus_exec. cbv zeta.
    set (w1 := exec (log _ _) w).
    set (w2 := exec stopBitrateTimer w1).
    match goal with |- context [exec ?m w2] => set (w3 := exec m w2) end.
    assert (Hv3 : videoRef w3 = Some el).
    { unfold w3. frame_rw. unfold w2. frame_rw. unfold w1. frame_rw. exact Hv. }
    frame_rw. cbn [videoRef set_streamingRef]. rewrite Hv3.
    apply last_snoc. }
  pose proof (f_equal o_streamState Hobs) as Hs. cbn in Hs. rewrite Hs.
  repeat split.
Qed.

Lemma cleanup_completes_on_failure_witness :
  let w := exec cleanupJanus demoConnected in
  In (cleanupWarning "Error: destroy failed") (logs w) /\
  janusRef w = None /\
  connectionState (streamState w) = DISCONNECTED.
Proof.
  assert (Hj : janusRef demoConnected
               = Some (lib_new demoLibrary "http://localhost:8088/janus"))
    by (vm_compute; reflexivity).
  pose proof (cleanup_completes_on_failure demoConnected _ "Error: destroy failed"
                Hj eq_refl) as (_ & Hlog & Hjr & _ & _ & _ & Hcs & _).
  exact (conj Hlog (conj Hjr Hcs)).
Defined.

(** ** [stopStream] *)

Lemma stopStream_without_handle w :
  streamingRef w = None -> stopStream w = (Ok tt, w).
Proof. intros Hs. unfold stopStream, bind, gets. rewrite Hs. reflexivity. Qed.

(** The first call keeps the plugin handle and detaches the source. *)
Lemma stopStream_detaches w handle :
  streamingRef w = Some handle ->
  streamingRef (exec stopStream w) = Some handle /\
  videoRef (exec stopStream w) = set_srcObject None <$> videoRef w.
Proof.
  intros Hs. split.
  - rewrite <- Hs. frame.
  - unfold stopStream. rewrite exec_gets, Hs.
    rewrite exec_seq by safe_walk. rewrite exec_gets.
    rewrite exec_seq by safe_walk. frame_rw.
    set (w1 := exec (log _ _) w).
    assert (Hv : videoRef w1 = videoRef w) by (unfold w1; frame).
    rewrite Hv. destruct (videoRef w) as [el|]; [| exact Hv].
    cbv zeta. rewrite exec_seq by safe_walk. rewrite exec_modify.
    destruct (srcObject el) as [r|]; [| reflexivity].
    frame_rw. reflexivity.
Qed.

Lemma set_srcObject_None_id el : srcObject el = None -> set_srcObject None el = el.
Proof. destruct el; cbn; intros ->; reflexivity. Qed.

(** With no source attached, a call changes nothing observable. *)
Lemma stopStream_detached w :
  (forall el, videoRef w = Some el -> srcObject el = None) ->
  observe (exec stopStream w) = observe w.
Proof.
  intros Hd. destruct (streamingRef w) as [handle|] eqn:Hs;
    [| unfold exec; by rewrite (stopStream_without_handle w Hs)].
  unfold stopStream. rewrite exec_gets, Hs.
  rewrite exec_seq by safe_walk. rewrite exec_gets.
  rewrite exec_seq by safe_walk.
  set (w1 := exec (log _ _) w).
  assert (Hv : videoRef w1 = videoRef w) by (unfold w1; frame).
  assert (Hw1 : observe w1 = observe w).
  { unfold observe, w1. f_equal; frame. }
  rewrite <- Hw1. rewrite Hv.
  destruct (videoRef w) as [el|] eqn:Hel.
  - cbv zeta. rewrite (Hd el eq_refl).
    rewrite set_srcObject_None_id by exact (Hd el eq_refl).
    cbv beta iota zeta delta [exec bind call modify ret snd].
    unfold observe. cbn. f_equal. congruence.
  - unfold observe. f_equal; repeat frame_rw; reflexivity.
Qed.

(** C9.  [stopStream] is a no-op without a plugin handle: it returns
    normally and the world is untouched.  It is idempotent and safe to
    repeat: it returns normally from every world, also right after itself,
    and the second of two consecutive calls leaves the observable state
    (handles, live samplers, video surface and its source, stream state,
    media streams, settings) exactly as the first call left it. *)
Theorem stopStream_idempotent (w : World) :
  (streamingRef w = None -> stopStream w = (Ok tt, w)) /\
  result stopStream w = Ok tt /\
  result stopStream (exec stopStream w) = Ok tt /\
  observe (exec stopStream (exec stopStream w)) = observe (exec stopStream w).
Proof.
  split; [exact (stopStream_without_handle w) | split].
  { apply safe_unit_result, stopStream_safe. }
  split; [apply safe_unit_result, stopStream_safe |].
  destruct (streamingRef w) as [handle|] eqn:Hs.
  - destruct (stopStream_detaches w handle Hs) as [_ Hv].
    apply stopStream_detached. intros el Hel. rewrite Hv in Hel.
    destruct (videoRef w) as [el'|]; [| discriminate].
    injection Hel as <-. reflexivity.
  - unfold exec. rewrite (stopStream_without_handle w Hs). cbn [snd].
    rewrite (stopStream_without_handle w Hs). reflexivity.
Qed.

Lemma stopStream_idempotent_witness :
  stopStream (initialWorld demoLibrary demoSettings)
  = (Ok tt, initialWorld demoLibrary demoSettings).
Proof.
  exact (proj1 (stopStream_idempotent (initialWorld demoLibrary demoSettings)) eq_refl).
Defined.

(** A repeated call is not silent on the wire: with a handle and a mounted
    element whose source is already detached it pauses again and sends
    "stop" and the hangup again. *)
Lemma stopStream_repeats_requests w handle el :
  streamingRef w = Some handle ->
  videoRef w = Some el ->
  srcObject el = None ->
  calls (exec stopStream w) =
  (calls w ++ [VideoPause; PluginSend (handle_id handle) ReqStop None;
               PluginHangup (handle_id handle)])%list.
Proof.
  intros Hs Hv Hsrc. unfold stopStream. rewrite exec_gets, Hs.
  rewrite exec_seq by safe_walk. rewrite exec_gets.
  set (w1 := exec (log _ _) w).
  assert (Hv1 : videoRef w1 = Some el) by (unfold w1; frame_rw; exact Hv).
  assert (Hc1 : calls w1 = calls w) by (unfold w1; frame).
  clearbody w1. rewrite Hv1. cbv zeta. rewrite Hsrc.
  cbv beta iota zeta delta [exec bind call modify ret snd]. cbn.
  rewrite Hc1, <- !app_assoc. reflexivity.
Qed.

(** ** [startStream] *)

(** C6, as stated, fails: while the attach is pending (state Attaching, no
    plugin handle yet) [startStream] does not leave the connection state
    alone, it forces Disconnected. *)
Lemma startStream_without_handle_not_noop :
  streamingRef demoAttaching = None /\
  connectionState (streamState demoAttaching) = ATTACHING /\
  connectionState (streamState (exec (startStream demoRender) demoAttaching))
    = DISCONNECTED /\
  ~ onlySurfacesPluginError demoAttaching (exec (startStream demoRender) demoAttaching).
Proof.
  assert (H1 : connectionState (streamState demoAttaching) = ATTACHING)
    by (vm_compute; reflexivity).
  assert (H2 : connectionState (streamState (exec (startStream demoRender) demoAttaching))
               = DISCONNECTED) by (vm_compute; reflexivity).
  split; [vm_compute; reflexivity | split; [exact H1 | split; [exact H2 |]]].
  intros (_ & Hc & _). rewrite H1, H2 in Hc. discriminate.
Qed.

(** C6 (amended).  Without a live plugin handle [startStream] returns
    normally, surfaces the plugin-sourced error "Streaming plugin not
    initialized" and forces the connection state to Disconnected; nothing
    is sent, and the connected flag, the stats, the reconnect flag, the
    handles, the timers, the video surface, the media streams and the
    settings are unchanged.  With a live plugin handle it moves the
    connection state to Watching, changes nothing else of the stream
    state, and sends one "watch" request carrying the stream id of the
    settings it was created with. *)
Theorem startStream_contract (rd : Render) (w : World) :
  let w' := exec (startStream rd) w in
  result (startStream rd) w = Ok tt /\
  (streamingRef w = None ->
     streamState w' = {|
       connectionState := DISCONNECTED;
       isConnected := isConnected (streamState w);
       error := Some {| source := SrcPlugin;
                        message := "Streaming plugin not initialized" |};
       videoStats := videoStats (streamState w);
       shouldReconnect := shouldReconnect (streamState w) |} /\
     calls w' = calls w /\
     janusRef w' = janusRef w /\ streamingRef w' = None /\
     bitrateTimerRef w' = bitrateTimerRef w /\ intervals w' = intervals w /\
     videoRef w' = videoRef w /\ mediaStreams w' = mediaStreams w /\
     state w' = state w) /\
  (forall handle, streamingRef w = Some handle ->
     streamState w' = {|
       connectionState := WATCHING;
       isConnected := isConnected (streamState w);
       error := error (streamState w);
       videoStats := videoStats (streamState w);
       shouldReconnect := shouldReconnect (streamState w) |} /\
     calls w' =
     (calls w ++ [PluginSend (handle_id handle)
                             (ReqWatch (streamId (stream (r_state rd)))) None])%list /\
     streamingRef w' = Some handle).
Proof.
  intros w'. split; [apply safe_unit_result, startStream_safe | split].
  - intros Hs. subst w'. unfold startStream. rewrite exec_gets, Hs.
    split; [apply updateStreamState_effect |].
    repeat split; try frame. rewrite <- Hs. frame.
  - intros handle Hs. subst w'. unfold startStream. rewrite exec_gets, Hs.
    rewrite exec_seq by safe_walk.
    split; [frame_rw; apply updateStreamState_effect | split].
    + cbn [exec call modify snd calls set_calls]. f_equal. frame.
    + frame_rw. rewrite <- Hs. frame.
Qed.

Lemma startStream_contract_witness :
  connectionState (streamState (exec (startStream demoRender)
                                     (initialWorld demoLibrary demoSettings)))
    = DISCONNECTED /\
  calls (exec (startStream demoRender)
              (set_streamingRef (Some demoHandle)
                                (initialWorld demoLibrary demoSettings)))
    = [PluginSend 7 (ReqWatch 1) None].
Proof.
  split.
  - pose proof (proj1 (proj2 (startStream_contract demoRender
                                (initialWorld demoLibrary demoSettings))) eq_refl)
      as [Hs _].
    exact (f_equal connectionState Hs).
  - exact (proj1 (proj2 (proj2 (proj2 (startStream_contract demoRender
             (set_streamingRef (Some demoHandle)
                               (initialWorld demoLibrary demoSettings))))
             demoHandle eq_refl))).
Defined.

(** ** Tracks that are not video *)

(** C10.  An [onremotetrack] event for a track whose kind is not video,
    active or inactive, returns normally and leaves the observable state
    untouched: connection state, connected flag, stats and error, the
    bitrate timer handle and the live samplers, the video surface and the
    media streams behind it; and it issues no call. *)
Theorem non_video_track_ignored (rd : Render) (track : MediaStreamTrack)
    (mid : string) (on : bool) (w : World) :
  kind track <> VideoTrack ->
  result (onremotetrack rd track mid on) w = Ok tt /\
  observe (exec (onremotetrack rd track mid on) w) = observe w /\
  calls (exec (onremotetrack rd track mid on) w) = calls w.
Proof.
  intros Hk. unfold onremotetrack.
  destruct (kind track); [clear Hk | contradiction].
  destruct on; cbn [negb].
  - repeat split.
  - split; [apply safe_unit_result; safe_walk | split].
    + unfold observe. f_equal; frame.
    + frame.
Qed.

Lemma non_video_track_ignored_witness :
  observe (exec (onremotetrack demoRender audioA "a0" true) demoConnected)
    = observe demoConnected /\
  observe (exec (onremotetrack demoRender audioA "a0" false) demoConnected)
    = observe demoConnected.
Proof.
  assert (Hk : kind audioA <> VideoTrack) by discriminate.
  split.
  - exact (proj1 (proj2 (non_video_track_ignored demoRender audioA "a0" true
                           demoConnected Hk))).
  - exact (proj1 (proj2 (non_video_track_ignored demoRender audioA "a0" false
                           demoConnected Hk))).
Defined.

(** ** Playback rejections *)

Lemma append_cons a s t : String a s +:+ t = String a (s +:+ t).
Proof. reflexivity. Qed.

Lemma prefix_spec n s : String.prefix n s = true <-> exists post, s = n +:+ post.
Proof.
  revert s. induction n as [|a n IH]; intros s.
  - split; [intros _; exists s; reflexivity | by destruct s].
  - destruct s as [|b s]; cbn [String.prefix].
    + split; [discriminate | intros [post H]; discriminate].
    + destruct (Ascii.ascii_dec a b) as [->|Hne].
      * rewrite IH. split; intros [post H]; exists post;
          rewrite append_cons in *; congruence.
      * split; [discriminate |]. intros [post H].
        rewrite append_cons in H. congruence.
Qed.

Lemma includes_spec s n : includes s n = true <-> contains s n.
Proof.
  unfold contains. induction s as [|a s IH]; cbn [includes].
  - rewrite orb_false_r, prefix_spec. split.
    + intros [post H]. exists "", post. exact H.
    + intros (pre & post & H). destruct pre; [exists post; exact H | discriminate].
  - rewrite orb_true_iff, prefix_spec, IH. split.
    + intros [[post H] | (pre & post & H)].
      * exists "", post. exact H.
      * exists (String a pre), post. rewrite append_cons. by rewrite H.
    + intros (pre & post & H). destruct pre as [|b pre].
      * left. exists post. exact H.
      * right. exists pre, post. rewrite append_cons in H. congruence.
Qed.

Example abortError_is_interrupted : isInterrupted abortError = true.
Proof. reflexivity. Qed.

Example notAllowedError_is_not_interrupted : isInterrupted notAllowedError = false.
Proof. reflexivity. Qed.

Lemma isInterrupted_spec e : isInterrupted e = true <-> supersededRejection e.
Proof.
  unfold isInterrupted, supersededRejection. destruct (err_message e) as [m|].
  - rewrite andb_true_iff, includes_spec. split.
    + intros [_ H]. exists m. auto.
    + intros (m' & [= <-] & H). split; [| exact H].
      destruct H as (pre & post & ->). by destruct pre.
  - split; [discriminate | intros (m & H & _); discriminate].
Qed.

(** C2.  A playback rejection whose message contains the superseded-load
    phrase is benign: the callback returns normally, logs a warning, and the
    observable state, hence the surfaced error and the connection state,
    is what it was.  Any other rejection surfaces a [playback]-sourced
    error, carrying the rejection's message, and forces the connection
    state to Disconnected. *)
Theorem playback_rejection (e : JsError) (w : World) :
  let w' := exec (onPlayRejected e) w in
  result (onPlayRejected e) w = Ok tt /\
  (supersededRejection e ->
     observe w' = observe w /\
     last (logs w') = Some {| log_message := "Play interrupted, will retry automatically";
                              log_type := Warn |}) /\
  (~ supersededRejection e ->
     error (streamState w')
       = Some {| source := SrcPlayback; message := message_or_string e |} /\
     connectionState (streamState w') = DISCONNECTED).
Proof.
  intros w'. split; [apply safe_unit_result, onPlayRejected_safe |].
  subst w'. unfold onPlayRejected. rewrite <- isInterrupted_spec.
  destruct (isInterrupted e).
  - split; [intros _ | intros H; by destruct H].
    split; [unfold observe; f_equal; frame | apply last_snoc].
  - split; [discriminate | intros _].
    rewrite updateStreamState_effect. split; reflexivity.
Qed.

Lemma playback_rejection_witness :
  observe (exec (onPlayRejected abortError) demoConnected) = observe demoConnected /\
  connectionState (streamState (exec (onPlayRejected notAllowedError) demoConnected))
    = DISCONNECTED.
Proof.
  split.
  - apply (proj1 (proj2 (playback_rejection abortError demoConnected))).
    apply isInterrupted_spec. vm_compute. reflexivity.
  - apply (proj2 (proj2 (playback_rejection notAllowedError demoConnected))).
    intros H. apply isInterrupted_spec in H. vm_compute in H. discriminate.
Defined.

(** ** Replacing the video track *)

Lemma removeTrack_all (ts s : list MediaStreamTrack) :
  foldl (fun acc t => removeTrack t acc) s ts = filter (fun t => t ∉ ts) s.
Proof.
  revert s. induction ts as [|t ts IH]; intros s; cbn [foldl].
  - induction s as [|x s IHs]; [reflexivity|].
    rewrite filter_cons_True by apply not_elem_of_nil. by rewrite <- IHs.
  - rewrite IH. unfold removeTrack. rewrite list_filter_filter.
    apply list_filter_iff. intros x. rewrite not_elem_of_cons. tauto.
Qed.

Lemma getVideoTracks_none (s : list MediaStreamTrack) :
  (forall t, t ∈ s -> kind t <> VideoTrack) -> getVideoTracks s = [].
Proof.
  unfold getVideoTracks. induction s as [|x s IH]; intros H; [reflexivity|].
  rewrite filter_cons_False by (apply H; left).
  apply IH. intros t Ht. apply H. by right.
Qed.

(** Removing the video tracks one by one, then adding a video track, leaves
    that track as the only video track. *)
Lemma replace_video_track (track : MediaStreamTrack) (s : list MediaStreamTrack) :
  kind track = VideoTrack ->
  getVideoTracks
    (addTrack track (foldl (fun acc t => removeTrack t acc) s (getVideoTracks s)))
  = [track].
Proof.
  intros Hk. rewrite removeTrack_all.
  set (rest := filter (fun t => t ∉ getVideoTracks s) s).
  assert (Hnone : forall t, t ∈ rest -> kind t <> VideoTrack).
  { intros t Ht Hv. apply list_elem_of_filter in Ht as [Hn Hin].
    apply Hn. unfold getVideoTracks. apply list_elem_of_filter. auto. }
  assert (Hrest : getVideoTracks rest = []).
  { apply getVideoTracks_none, Hnone. }
  unfold addTrack. destruct (decide (track ∈ rest)) as [Hin|_].
  - destruct (Hnone track Hin Hk).
  - unfold getVideoTracks in *. rewrite filter_app, Hrest.
    rewrite filter_cons_True by exact Hk. reflexivity.
Qed.

Lemma videoRefCurrent_mounted el :
  triple (fun w => videoRef w = Some el) videoRefCurrent
         (fun a w => a = el /\ videoRef w = Some el) (fun _ _ => False).
Proof. intros w Hw. unfold videoRefCurrent, bind, gets. rewrite Hw. cbn. auto. Qed.

(** [forEach] over the tracks to remove empties them out of the stream
    behind [r] and touches nothing else of the video element. *)
Lemma forEach_removeTrack r v ts s :
  triple (fun w => videoRef w = v /\ derefStream w r = s)
         (forEach ts (fun t => streamModify r (removeTrack t)))
         (fun _ w => videoRef w = v /\
                     derefStream w r = foldl (fun acc t => removeTrack t acc) s ts)
         (fun _ _ => False).
Proof.
  revert s. induction ts as [|t ts IH]; intros s; cbn [forEach foldl].
  - apply triple_ret. auto.
  - eapply triple_bind; [| intros ?; apply IH].
    intros w [Hv Hs]. cbn. split; [exact Hv |].
    unfold derefStream at 1. cbn. rewrite lookup_insert_eq. cbn. by rewrite Hs.
Qed.

(** One active video track: afterwards the surface has a source whose only
    video track is the one just received. *)
Lemma active_video_track rd track mid el :
  kind track = VideoTrack ->
  triple (fun w => videoRef w = Some el)
         (onremotetrack rd track mid true)
         (fun _ w => exists r,
              videoRef w = Some (set_srcObject (Some r) el) /\
              getVideoTracks (derefStream w r) = [track])
         (fun _ _ => False).
Proof.
  intros Hk. unfold onremotetrack. cbn [negb]. rewrite Hk.
  eapply triple_bind with (R := fun _ w => videoRef w = Some el).
  { apply inv_safe_triple; [inv_walk untouched | safe_walk]. }
  intros _. eapply triple_bind; [apply videoRefCurrent_mounted |].
  intros el0.
  eapply triple_bind
    with (R := fun _ w => exists r, videoRef w = Some (set_srcObject (Some r) el)).
  { intros w [-> Hw]. destruct (srcObject el) as [r|] eqn:Hsrc; cbn.
    - exists r. rewrite Hw. destruct el; unfold set_srcObject; cbn in *.
      by rewrite Hsrc.
    - eexists. reflexivity. }
  intros _ w [r Hw].
  pose proof (videoRefCurrent_mounted _ w Hw) as Hcur.
  unfold bind at 1. destruct (videoRefCurrent w) as [[el'|?] w1]; [| contradiction].
  destruct Hcur as [-> Hw1]. cbn [srcObject set_srcObject].
  revert w1 Hw1. clear w Hw.
  change (triple (fun w1 => videoRef w1 = Some (set_srcObject (Some r) el))
            (existingVideoTracks <- gets (fun w => getVideoTracks (derefStream w r)) ;;
             forEach existingVideoTracks (fun t => streamModify r (removeTrack t)) ;;
             streamModify r (addTrack track) ;;
             when (negb (isConnected (r_streamState rd)))
               (log ("Playing video track: " +:+ track_id track) Info ;;
                _ <- setTimeout (KPlay mid) 100 ;;
                ret tt))
            (fun _ w => exists r0,
                 videoRef w = Some (set_srcObject (Some r0) el) /\
                 getVideoTracks (derefStream w r0) = [track])
            (fun _ _ => False)).
  eapply triple_bind
    with (R := fun ts w => videoRef w = Some (set_srcObject (Some r) el) /\
                           ts = getVideoTracks (derefStream w r)).
  { apply triple_gets. auto. }
  intros ts.
  eapply triple_bind
    with (R := fun _ w => videoRef w = Some (set_srcObject (Some r) el) /\
                          exists s, ts = getVideoTracks s /\
                            derefStream w r
                            = foldl (fun acc t => removeTrack t acc) s ts).
  { intros w [Hv Hts].
    pose proof (forEach_removeTrack r _ ts _ w (conj Hv eq_refl)) as H.
    destruct (forEach ts _ w) as [[[]|?] w']; [| contradiction].
    destruct H as [Hv' Hd]. split; [exact Hv' | eauto]. }
  intros _.
  eapply triple_bind
    with (R := fun _ w => videoRef w = Some (set_srcObject (Some r) el) /\
                          getVideoTracks (derefStream w r) = [track]).
  { intros w (Hv & s & -> & Hd). cbn. split; [exact Hv |].
    unfold derefStream at 1. cbn. rewrite lookup_insert_eq. cbn.
    rewrite Hd. apply replace_video_track, Hk. }
  intros _.
  eapply triple_conseq;
    [ apply (inv_safe_triple
               (fun w => videoRef w = Some (set_srcObject (Some r) el) /\
                         getVideoTracks (derefStream w r) = [track])
               _ (fun _ _ => False));
      [inv_walk untouched | safe_walk]
    | auto | | auto ].
  intros ? w H. exists r. exact H.
Qed.

(** C1.  Start from any world whose video element is mounted and feed it
    any sequence of [onremotetrack] events that each carry an active video
    track.  Every event returns normally, and after the last one, hence
    after each one, the sequence being arbitrary, the media stream attached
    to the video surface holds exactly one video track: the one received
    last. *)
Theorem newest_video_track_only (w : World) (el : HTMLVideoElement)
    (earlier : list (Render * MediaStreamTrack * string))
    (rd : Render) (track : MediaStreamTrack) (mid : string) :
  videoRef w = Some el ->
  Forall (fun ev => kind ev.1.2 = VideoTrack) earlier ->
  kind track = VideoTrack ->
  let evs := activeTrackEvents (earlier ++ [(rd, track, mid)]) in
  Forall (fun r => r = Ok tt) (outcomes evs w) /\
  attachedVideoTracks (run evs w) = [track].
Proof.
  intros Hv Hearlier Hk. cbv zeta. revert w el Hv.
  induction Hearlier as [|[[rd0 t0] mid0] earlier Hk0 _ IH]; intros w el Hv.
  - cbn [app activeTrackEvents map outcomes run fold_left handle fst snd].
    destruct (triple_exec _ _ _ w (active_video_track rd track mid el Hk) Hv)
      as [[] [Hres (r & Hv' & Htracks)]].
    split; [repeat constructor; exact Hres |].
    unfold attachedVideoTracks. rewrite Hv'. exact Htracks.
  - cbn [fst snd] in Hk0.
    cbn [app activeTrackEvents map outcomes run fold_left handle fst snd].
    destruct (triple_exec _ _ _ w (active_video_track rd0 t0 mid0 el Hk0) Hv)
      as [[] [Hres (r & Hv' & _)]].
    destruct (IH _ _ Hv') as [Hok Hlast].
    split; [constructor; [exact Hres | exact Hok] | exact Hlast].
Qed.

Lemma newest_video_track_only_witness :
  attachedVideoTracks
    (run [EvRemoteTrack demoRender videoA "v0" true;
          EvRemoteTrack demoRender videoB "v1" true]
         (initialWorld demoLibrary demoSettings))
  = [videoB].
Proof.
  refine (proj2 (newest_video_track_only (initialWorld demoLibrary demoSettings) _
                   [(demoRender, videoA, "v0")] demoRender videoB "v1"
                   eq_refl _ eq_refl)).
  repeat constructor.
Defined.

(** ** Settings store *)

Example settings_from_partial_state :
  initPanelState (Some partialInitialState)
  = Ok {| stream := {| label := "Front camera"; visible := true;
                       serverUrl := "http://localhost:8088/janus";
                       streamId := 42; debug := false |} |}.
Proof. reflexivity. Qed.

(** C7, as stated, fails: with nothing provided by the host the label is
    initialized to "Janus Stream", not to "Stream". *)
Lemma default_label_is_not_Stream :
  exists st, initPanelState (Some emptyInitialState) = Ok st /\
             label (stream st) = "Janus Stream" /\
             label (stream st) <> "Stream".
Proof. eexists. split; [reflexivity | split; [reflexivity | discriminate]]. Qed.

(** C7 (amended).  For every partial initial state the host provides, the
    settings store initializes each field from the provided value when
    there is one and otherwise from its default: label "Janus Stream",
    visible true, serverUrl "http://localhost:8088/janus", streamId 1,
    debug false. *)
Theorem settings_initialized_with_defaults (ps : PartialPanelState) :
  exists st,
    initPanelState (Some ps) = Ok st /\
    initializedFrom (provided ps p_label) "Janus Stream" (label (stream st)) /\
    initializedFrom (provided ps p_visible) true (visible (stream st)) /\
    initializedFrom (provided ps p_serverUrl) "http://localhost:8088/janus"
                    (serverUrl (stream st)) /\
    initializedFrom (provided ps p_streamId) 1 (streamId (stream st)) /\
    initializedFrom (provided ps p_debug) false (debug (stream st)).
Proof.
  eexists. split; [reflexivity |].
  unfold initializedFrom, provided, stream_field. cbn.
  destruct (p_stream ps) as [s|]; cbn; [| repeat split].
  destruct (p_label s), (p_visible s), (p_serverUrl s), (p_streamId s), (p_debug s);
    repeat split.
Qed.

(** ** Restart and teardown *)

(** The cleanup function of the reconnect effect cancels the timer whose
    handle it holds, and the follow-up timer once that handle is set. *)
Lemma reconnect_cleanup_cancels c v w :
  reconnectVars w !! c = Some v ->
  let w' := exec (reconnectEffectCleanup c) w in
  timeouts w' !! v_timeout v = None /\
  (forall h, v_reconnectTimeout v = Some h -> h <> 0 -> timeouts w' !! h = None).
Proof.
  intros Hv. cbv zeta. unfold reconnectEffectCleanup. rewrite exec_gets, Hv.
  unfold clearTimeout, clearTimer. rewrite exec_modify.
  destruct (v_reconnectTimeout v) as [h|].
  - unfold truthy_number. destruct (Z.eqb_spec h 0) as [->|Hne]; cbn.
    + split; [apply lookup_delete_eq | intros ? [= <-] ?; congruence].
    + split; [| intros ? [= <-] _; apply lookup_delete_eq].
      destruct (decide (h = v_timeout v)) as [->|Hd]; [apply lookup_delete_eq|].
      rewrite lookup_delete_ne by exact Hd. apply lookup_delete_eq.
  - cbn. split; [apply lookup_delete_eq | intros ? [=]].
Qed.

(** The reconnect effect is cancelable at both stages: after a teardown
    that comes before the first timer fires, or between the two timers, no
    restart continuation is pending. *)
Lemma reconnect_effect_cancelled_on_unmount :
  pendingRestarts (run [EvReconnectEffect reconnectRender; EvUnmount] demoConnected) = [] /\
  pendingRestarts (run [EvReconnectEffect reconnectRender; EvTimeout 16; EvUnmount]
                       demoConnected) = [] /\
  pendingRestarts (run [EvReconnectEffect reconnectRender] demoConnected)
    = [(16, KReconnectCleanup 0 reconnectRender)] /\
  pendingRestarts (run [EvReconnectEffect reconnectRender; EvTimeout 16] demoConnected)
    = [(21, KReconnectInit reconnectRender)].
Proof. repeat split; vm_compute; reflexivity. Qed.

(** C5.  The manual restart keeps neither timer handle, so it cannot be
    cancelled: restart a connected panel, unmount it before the first delay
    elapses, and the 500 ms continuation is still pending; when it fires it
    runs [cleanupJanus] and schedules the 1000 ms continuation, and when
    that fires [initJanusConnection] opens a new session for the component
    that was torn down. *)
Theorem manual_restart_survives_teardown :
  let torn := run [EvRestartClick demoRender; EvUnmount] demoConnected in
  let later := run [EvTimeout 16; EvTimeout 23] torn in
  videoRef torn = None /\
  janusRef torn = None /\
  pendingRestarts torn = [(16, KRestartCleanup demoRender)] /\
  pendingRestarts (run [EvTimeout 16] torn) = [(23, KRestartInit demoRender)] /\
  janusRef later = Some (lib_new demoLibrary "http://localhost:8088/janus") /\
  last (calls later) = Some (NewJanus "http://localhost:8088/janus").
Proof. cbv zeta. repeat split; vm_compute; reflexivity. Qed.

(** * Further properties of the controller *)

(** ** Stream-state updates *)

Lemma applyUpdate_twice ss u : applyUpdate (applyUpdate ss u) u = applyUpdate ss u.
Proof.
  unfold applyUpdate. cbn.
  destruct (u_connectionState u), (u_isConnected u), (u_error u), (u_videoStats u),
    (u_shouldReconnect u); reflexivity.
Qed.

Lemma set_streamState_same w : set_streamState (streamState w) w = w.
Proof. destruct w; reflexivity. Qed.

Lemma error_is_new_same e : error_is_new e (Some e) = false.
Proof.
  unfold error_is_new. rewrite String.eqb_refl.
  rewrite bool_decide_eq_true_2 by reflexivity. reflexivity.
Qed.

(** An update that changes nothing of the stream state is silent: it
    writes no log entry and leaves the whole world as it is. *)
Lemma updateStreamState_unchanged u w :
  applyUpdate (streamState w) u = streamState w ->
  updateStreamState u w = (Ok tt, w).
Proof.
  intros Hsame. unfold updateStreamState, bind, gets. cbn.
  assert (Hc : match u_connectionState u with
               | Some c => c = connectionState (streamState w)
               | None => True
               end).
  { pose proof (f_equal connectionState Hsame) as H. cbn in H.
    destruct (u_connectionState u); [exact H | exact Logic.I]. }
  assert (He : match u_error u with
               | Some oe => oe = error (streamState w)
               | None => True
               end).
  { pose proof (f_equal error Hsame) as H. cbn in H.
    destruct (u_error u); [exact H | exact Logic.I]. }
  destruct (u_connectionState u) as [c|].
  - rewrite bool_decide_eq_true_2 by exact Hc. cbn.
    destruct (u_error u) as [[e|]|].
    + rewrite <- He, error_is_new_same. cbn. unfold modify.
      rewrite Hsame, set_streamState_same. reflexivity.
    + cbn. unfold modify. rewrite Hsame, set_streamState_same. reflexivity.
    + cbn. unfold modify. rewrite Hsame, set_streamState_same. reflexivity.
  - cbn. destruct (u_error u) as [[e|]|].
    + rewrite <- He, error_is_new_same. cbn. unfold modify.
      rewrite Hsame, set_streamState_same. reflexivity.
    + cbn. unfold modify. rewrite Hsame, set_streamState_same. reflexivity.
    + cbn. unfold modify. rewrite Hsame, set_streamState_same. reflexivity.
Qed.

(** X1.  Stream-state updates are deduplicated: repeating an update right
    after itself returns normally, writes no further log entry and leaves
    the whole world, stream state included, as the first application left
    it. *)
Theorem updateStreamState_repeat_is_silent (u : StreamUpdate) (w : World) :
  let w1 := exec (updateStreamState u) w in
  updateStreamState u w1 = (Ok tt, w1).
Proof.
  intros w1. apply updateStreamState_unchanged.
  unfold w1. rewrite updateStreamState_effect. apply applyUpdate_twice.
Qed.

(** ** Signaling messages *)

(** X2.  A signaling message that carries an error surfaces it as a
    [stream]-sourced error and does nothing else: connection state,
    connected flag and stats stay as they were, and an offer delivered with
    the same message is not answered (nothing is sent). *)
Theorem stream_error_takes_precedence (msg : Message) (jsep : option string)
    (e : string) (w : World) :
  msg_error msg = Some e ->
  e <> "" ->
  let w' := exec (onmessage msg jsep) w in
  result (onmessage msg jsep) w = Ok tt /\
  streamState w' = {|
    connectionState := connectionState (streamState w);
    isConnected := isConnected (streamState w);
    error := Some {| source := SrcStream; message := e |};
    videoStats := videoStats (streamState w);
    shouldReconnect := shouldReconnect (streamState w) |} /\
  calls w' = calls w /\
  streamingRef w' = streamingRef w.
Proof.
  intros Hm He w'. subst w'. unfold onmessage, truthy_error. rewrite Hm.
  destruct e as [|a e]; [contradiction | cbn [truthy_string]].
  split; [apply safe_unit_result; auto with js | split].
  - apply updateStreamState_effect.
  - split; frame.
Qed.

Lemma stream_error_takes_precedence_witness :
  calls (exec (onmessage noSuchStream (Some "v=0 offer")) demoConnected)
  = calls demoConnected.
Proof.
  refine (proj1 (proj2 (proj2 (stream_error_takes_precedence noSuchStream
                                 (Some "v=0 offer") _ demoConnected eq_refl _)))).
  discriminate.
Defined.

(** X3.  Signaling that arrives after cleanup is inert: once [cleanupJanus]
    has run, a message without an error, with or without an offer, and the
    success callback of an answer still in flight both return normally and
    leave the world untouched; nothing is sent on the dropped handle. *)
Theorem late_signaling_is_inert (msg : Message) (jsep : option string)
    (answer : string) (w : World) :
  msg_error msg = None ->
  let w0 := exec cleanupJanus w in
  onmessage msg jsep w0 = (Ok tt, w0) /\
  onAnswerSuccess answer w0 = (Ok tt, w0).
Proof.
  intros Hm w0.
  assert (Hs : streamingRef w0 = None)
    by exact (f_equal o_streamingRef (cleanupJanus_observe w)).
  unfold onmessage, truthy_error, answerOffer, onAnswerSuccess, bind, gets.
  rewrite Hm, Hs. destruct jsep; split; reflexivity.
Qed.

Lemma late_signaling_is_inert_witness :
  let w0 := exec cleanupJanus demoConnected in
  onmessage {| msg_error := None |} (Some "v=0 offer") w0 = (Ok tt, w0).
Proof.
  exact (proj1 (late_signaling_is_inert {| msg_error := None |} (Some "v=0 offer")
                  "v=0 answer" demoConnected eq_refl)).
Defined.

(** ** Error callbacks *)

Lemma failWith_surfaces src msg : surfacesError src msg (updateStreamState (failWith src msg)).
Proof.
  intros w w'. subst w'.
  split; [apply safe_unit_result; auto with js |].
  rewrite updateStreamState_effect. cbn.
  do 4 (split; [reflexivity |]).
  repeat split; frame.
Qed.

(** X4.  The error callbacks of the session, of the plugin attach, of the
    answer negotiation and of playback (for a rejection that is not the
    superseded load) each return normally, force Disconnected and set an
    error with their own source; the message is the rendering of the error
    for the session and the attach, and the error's message, or its
    rendering when the message is missing or empty, for the negotiation and
    playback.  None of them touches the connected flag, the stats, the
    handles, the sampler or the wire. *)
Theorem error_callbacks_surface (e : JsError) :
  surfacesError SrcJanus (err_string e) (onJanusError e) /\
  surfacesError SrcPlugin (err_string e) (onAttachError e) /\
  surfacesError SrcWebrtc (message_or_string e) (onAnswerError e) /\
  (isInterrupted e = false ->
   surfacesError SrcPlayback (message_or_string e) (onPlayRejected e)).
Proof.
  split; [apply failWith_surfaces | split; [apply failWith_surfaces | split]].
  - apply failWith_surfaces.
  - intros Hi. unfold onPlayRejected. rewrite Hi. apply failWith_surfaces.
Qed.

Lemma error_callbacks_surface_witness :
  surfacesError SrcPlayback
    "play() failed because the user did not interact with the document first."
    (onPlayRejected notAllowedError).
Proof.
  exact (proj2 (proj2 (proj2 (error_callbacks_surface notAllowedError))) eq_refl).
Defined.

Lemma failWith_overlay src msg w :
  isConnected (streamState w) = true ->
  let ss := streamState (exec (updateStreamState (failWith src msg)) w) in
  overlayText ss = "Not connected: " +:+ msg /\ overlayDisplay ss = "none".
Proof.
  intros Hc ss. subst ss. rewrite updateStreamState_effect.
  unfold overlayText, overlayDisplay. cbn. rewrite Hc. split; reflexivity.
Qed.

(** X5.  An error that arrives while the panel is connected is not shown.
    After the error callback of the session, of the attach or of the
    negotiation the text of the status overlay is "Not connected: "
    followed by the message, but the overlay keeps [display: none], because
    the callbacks leave the connected flag set. *)
Theorem error_while_connected_stays_hidden (e : JsError) (w : World) :
  isConnected (streamState w) = true ->
  (let ss := streamState (exec (onJanusError e) w) in
   overlayText ss = "Not connected: " +:+ err_string e /\ overlayDisplay ss = "none") /\
  (let ss := streamState (exec (onAttachError e) w) in
   overlayText ss = "Not connected: " +:+ err_string e /\ overlayDisplay ss = "none") /\
  (let ss := streamState (exec (onAnswerError e) w) in
   overlayText ss = "Not connected: " +:+ message_or_string e /\
   overlayDisplay ss = "none").
Proof.
  intros Hc. split; [| split]; apply failWith_overlay, Hc.
Qed.

Lemma error_while_connected_stays_hidden_witness :
  let ss := streamState (exec (onJanusError
                                 {| err_message := None;
                                    err_string := "Lost connection to the server" |})
                              demoConnected) in
  overlayText ss = "Not connected: Lost connection to the server" /\
  overlayDisplay ss = "none".
Proof.
  assert (Hc : isConnected (streamState demoConnected) = true)
    by (vm_compute; reflexivity).
  exact (proj1 (error_while_connected_stays_hidden
                  {| err_message := None;
                     err_string := "Lost connection to the server" |}
                  demoConnected Hc)).
Defined.

(** ** Invariants of the stream state *)

(** A property of the stream state kept by an update is kept by
    [updateStreamState]. *)
Lemma updateStreamState_keeps (J : JanusStreamState -> Prop) u :
  (forall ss, J ss -> J (applyUpdate ss u)) ->
  inv (fun w => J (streamState w)) (updateStreamState u).
Proof.
  intros HJ w Hw.
  destruct (safe_result _ w (updateStreamState_safe u)) as [[] Heq].
  rewrite Heq, updateStreamState_effect. apply HJ, Hw.
Qed.

(** The walk of [inv_walk] for an invariant [J] of the stream state:
    [upd] closes the goal an [updateStreamState] leaves, [leaf] the goal a
    [modify] leaves. *)
Ltac state_walk J upd leaf :=
  lazymatch goal with
  | |- inv _ (updateStreamState _) => apply (updateStreamState_keeps J); upd
  | |- inv _ (ret _) => apply inv_ret
  | |- inv _ (throw _) => apply inv_throw
  | |- inv _ (gets _) => apply inv_gets
  | |- inv _ (modify _) => apply inv_modify; leaf
  | |- inv _ (bind _ _) =>
      apply inv_bind; [state_walk J upd leaf | intros ?; state_walk J upd leaf]
  | |- inv _ (try_catch _ _) =>
      apply inv_try_catch; [state_walk J upd leaf | intros ?; state_walk J upd leaf]
  | |- inv _ (when _ _) => apply inv_when; state_walk J upd leaf
  | |- inv _ (forEach _ _) => apply inv_forEach; intros ?; state_walk J upd leaf
  | |- inv _ (match ?x with _ => _ end) => destruct x; state_walk J upd leaf
  | |- inv _ (let _ := _ in _) => cbv zeta; state_walk J upd leaf
  | |- inv _ ?m => let h := head_of m in unfold h; state_walk J upd leaf
  end.

(** ** The bitrate sampler *)

Lemma exec_try_catch_safe {A} (m : M A) h w : safe m -> exec (try_catch m h) w = exec m w.
Proof.
  intros Hm. destruct (safe_result m w Hm) as [a Heq].
  unfold exec, try_catch. rewrite Heq. reflexivity.
Qed.

Lemma truthy_number_nonzero n : n <> 0 -> truthy_number n = true.
Proof. intros H. unfold truthy_number. by destruct (Z.eqb_spec n 0). Qed.

Lemma updateBitrate_success mid w el h b :
  samplerReady w el h -> getBitrate h mid = Ok b ->
  streamState (exec (updateBitrate mid) w) = {|
    connectionState := connectionState (streamState w);
    isConnected := isConnected (streamState w);
    error := error (streamState w);
    videoStats := Some {| width := videoWidth el; height := videoHeight el;
                          bitrate := b |};
    shouldReconnect := shouldReconnect (streamState w) |}.
Proof.
  intros (Hv & Hw & Hs) Hb. unfold updateBitrate.
  rewrite !exec_gets, Hv, Hs, (truthy_number_nonzero _ Hw), Hb. cbn [when].
  rewrite exec_try_catch_safe by auto with js. apply updateStreamState_effect.
Qed.

(** X6.  One run of the sampler.  When the video element reports a width
    and a plugin handle is live, a successful [getBitrate] publishes the
    element's width and height with the bitrate as the new stats and
    changes nothing else of the stream state; a [getBitrate] that throws
    is logged as a warning and is not surfaced: the stream state, error
    included, is what it was.  When the element is unmounted or its width
    is 0 the sampler does nothing at all. *)
Theorem sampler_run (mid : string) (w : World) :
  result (updateBitrate mid) w = Ok tt /\
  (forall el h b, samplerReady w el h -> getBitrate h mid = Ok b ->
     streamState (exec (updateBitrate mid) w) = {|
       connectionState := connectionState (streamState w);
       isConnected := isConnected (streamState w);
       error := error (streamState w);
       videoStats := Some {| width := videoWidth el; height := videoHeight el;
                             bitrate := b |};
       shouldReconnect := shouldReconnect (streamState w) |}) /\
  (forall el h e, samplerReady w el h -> getBitrate h mid = Throw e ->
     streamState (exec (updateBitrate mid) w) = streamState w /\
     last (logs (exec (updateBitrate mid) w))
       = Some {| log_message := "Error getting bitrate: " +:+ e; log_type := Warn |}) /\
  ((forall el, videoRef w = Some el -> videoWidth el = 0) ->
     updateBitrate mid w = (Ok tt, w)).
Proof.
  split; [apply safe_unit_result, updateBitrate_safe | split; [| split]].
  - intros el h b Hready Hb. exact (updateBitrate_success mid w el h b Hready Hb).
  - intros el h e (Hv & Hw & Hs) Hb. unfold updateBitrate.
    rewrite !exec_gets, Hv, Hs, (truthy_number_nonzero _ Hw), Hb. cbn [when].
    change (exec (try_catch (throw e) _) w)
      with (exec (log ("Error getting bitrate: " +:+ e) Warn) w).
    split; [frame | apply last_snoc].
  - intros Hz. unfold updateBitrate, bind, gets. cbn.
    destruct (videoRef w) as [el|] eqn:Hv; [| reflexivity].
    rewrite (Hz el eq_refl). destruct (streamingRef w); reflexivity.
Qed.

Lemma sampler_run_witness :
  let w := demoConnected in
  videoStats (streamState (exec (updateBitrate "v0") w))
    = Some {| width := 640; height := 480; bitrate := "512 kbits/sec" |} /\
  streamState (exec (updateBitrate "v0") (set_streamingRef (Some brokenHandle) w))
    = streamState w /\
  updateBitrate "v0" (initialWorld demoLibrary demoSettings)
  = (Ok tt, initialWorld demoLibrary demoSettings).
Proof.
  cbv zeta. unfold demoConnected.
  assert (Hv : videoRef (run demoSession (initialWorld demoLibrary demoSettings))
               = Some {| srcObject := Some 0%nat; videoWidth := 640; videoHeight := 480 |})
    by (vm_compute; reflexivity).
  assert (Hs : streamingRef (run demoSession (initialWorld demoLibrary demoSettings))
               = Some demoHandle)
    by (vm_compute; reflexivity).
  revert Hv Hs.
  generalize (run demoSession (initialWorld demoLibrary demoSettings)) as w.
  intros w Hv Hs. split; [| split].
  - refine (f_equal videoStats
              (proj1 (proj2 (sampler_run "v0" w))
                     {| srcObject := Some 0%nat; videoWidth := 640; videoHeight := 480 |}
                     demoHandle _ _ eq_refl)).
    split; [exact Hv | split; [discriminate | exact Hs]].
  - refine (proj1 (proj1 (proj2 (proj2 (sampler_run "v0" _))) _ brokenHandle _ _ eq_refl)).
    split; [exact Hv | split; [discriminate | reflexivity]].
  - apply (proj2 (proj2 (proj2 (sampler_run "v0" (initialWorld demoLibrary demoSettings))))).
    intros el [= <-]. reflexivity.
Defined.

Lemma updateBitrate_keeps_connection mid c b e :
  inv (fun w => connectionState (streamState w) = c /\
                isConnected (streamState w) = b /\
                error (streamState w) = e)
      (updateBitrate mid).
Proof.
  state_walk (fun ss => connectionState ss = c /\ isConnected ss = b /\ error ss = e)
             ltac:(intros ss H; exact H) untouched.
Qed.

(** The world after the fulfilment callback of [play()], block by block. *)
Lemma onPlayResolved_exec mid w :
  exec (onPlayResolved mid) w =
  let w1 := exec (updateStreamState {|
                    u_connectionState := Some CONNECTED;
                    u_isConnected := Some true;
                    u_error := Some None;
                    u_videoStats := None; u_shouldReconnect := None |}) w in
  match bitrateTimerRef w with
  | None =>
      let w2 := exec (updateBitrate mid) w1 in
      set_bitrateTimerRef (Some (nextTimer w2))
        (set_nextTimer (nextTimer w2 + 1)
           (set_intervals (<[nextTimer w2 := mid]> (intervals w2)) w2))
  | Some _ => w1
  end.
Proof.
  unfold onPlayResolved. cbv zeta.
  rewrite exec_seq by auto with js. rewrite exec_gets.
  set (w1 := exec (updateStreamState _) w).
  assert (Hr : bitrateTimerRef w1 = bitrateTimerRef w) by (unfold w1; frame).
  rewrite Hr. destruct (bitrateTimerRef w); [reflexivity |].
  rewrite exec_seq by auto with js. reflexivity.
Qed.

(** X7.  When [play()] is fulfilled the panel is connected and sampled.
    From any world the callback returns normally; afterwards the connection
    state is Connected, the connected flag is set, the error is cleared, so
    the status overlay is hidden; a timer handle is stored; and when none
    was stored before, the stored handle is a sampler that is live for the
    [mid] of this track. *)
Theorem play_fulfilled_connects (mid : string) (w : World) :
  let w' := exec (onPlayResolved mid) w in
  result (onPlayResolved mid) w = Ok tt /\
  connectionState (streamState w') = CONNECTED /\
  isConnected (streamState w') = true /\
  error (streamState w') = None /\
  overlayDisplay (streamState w') = "none" /\
  is_Some (bitrateTimerRef w') /\
  (bitrateTimerRef w = None ->
   exists h, bitrateTimerRef w' = Some h /\ intervals w' !! h = Some mid).
Proof.
  intros w'.
  assert (Hss : connectionState (streamState w') = CONNECTED /\
                isConnected (streamState w') = true /\
                error (streamState w') = None).
  { subst w'. rewrite onPlayResolved_exec. cbv zeta.
    set (w1 := exec (updateStreamState _) w).
    assert (H1 : connectionState (streamState w1) = CONNECTED /\
                 isConnected (streamState w1) = true /\
                 error (streamState w1) = None).
    { unfold w1. rewrite updateStreamState_effect. repeat split. }
    destruct (bitrateTimerRef w); [exact H1 |].
    cbn [streamState set_bitrateTimerRef set_nextTimer set_intervals].
    exact (inv_exec _ _ w1 (updateBitrate_keeps_connection mid _ _ _) H1). }
  destruct Hss as (Hc & Hi & He).
  split; [apply safe_unit_result, onPlayResolved_safe |].
  do 3 (split; [assumption |]).
  split; [unfold overlayDisplay; by rewrite Hi |].
  subst w'. rewrite onPlayResolved_exec. cbv zeta.
  destruct (bitrateTimerRef w) as [h|] eqn:Hr.
  - split; [| discriminate]. exists h. rewrite <- Hr. frame.
  - split; [cbn; eauto | intros _].
    eexists. split; [reflexivity |]. cbn. apply lookup_insert_eq.
Qed.

Lemma play_fulfilled_connects_witness :
  let w := run [EvMountEffect demoRender; EvJanusSuccess;
                EvAttachSuccess demoRender demoHandle]
               (initialWorld demoLibrary demoSettings) in
  exists h, bitrateTimerRef (exec (onPlayResolved "v0") w) = Some h /\
            intervals (exec (onPlayResolved "v0") w) !! h = Some "v0".
Proof.
  cbv zeta.
  assert (Hr : bitrateTimerRef
                 (run [EvMountEffect demoRender; EvJanusSuccess;
                       EvAttachSuccess demoRender demoHandle]
                      (initialWorld demoLibrary demoSettings)) = None)
    by (vm_compute; reflexivity).
  revert Hr.
  generalize (run [EvMountEffect demoRender; EvJanusSuccess;
                   EvAttachSuccess demoRender demoHandle]
                  (initialWorld demoLibrary demoSettings)) as w.
  intros w Hr.
  exact (proj2 (proj2 (proj2 (proj2 (proj2 (proj2
           (play_fulfilled_connects "v0" w)))))) Hr).
Defined.

Ltac keeps_flag :=
  let ss := fresh "ss" in
  let H := fresh "H" in
  let Hc := fresh "Hc" in
  intros ss H Hc; unfold applyUpdate, nullish in *; cbn in *;
  first [discriminate | reflexivity | exact (H Hc)].

Lemma handle_ConnectedMeansFlag ev :
  inv (fun w => ConnectedMeansFlag (streamState w)) (handle ev).
Proof.
  destruct ev; cbn [handle]; state_walk ConnectedMeansFlag keeps_flag untouched.
Qed.

(** X8.  Whatever happens to the mounted panel, the state Connected is
    never shown together with the status overlay: in every world reached
    from the initial one, if the connection state is Connected then the
    connected flag is set and the overlay has [display: none]. *)
Theorem connected_hides_overlay (lib : JanusLibrary) (st : PanelState)
    (evs : list Event) :
  let ss := streamState (run evs (initialWorld lib st)) in
  connectionState ss = CONNECTED ->
  isConnected ss = true /\ overlayDisplay ss = "none".
Proof.
  intros ss Hc.
  assert (Hf : isConnected ss = true).
  { refine (run_inv (fun w => ConnectedMeansFlag (streamState w)) evs _
                    handle_ConnectedMeansFlag _ Hc).
    intros H. discriminate H. }
  split; [exact Hf | unfold overlayDisplay; by rewrite Hf].
Qed.

Lemma connected_hides_overlay_witness :
  overlayDisplay (streamState demoConnected) = "none".
Proof.
  unfold demoConnected.
  refine (proj2 (connected_hides_overlay demoLibrary demoSettings demoSession _)).
  vm_compute. reflexivity.
Defined.

(** ** Settings edits *)




(** ** Restart and reconnect sequences *)

Lemma exec_setTimeout {B} k d (f : Z -> M B) w :
  exec (h <- setTimeout k d ;; f h) w =
  exec (f (nextTimer w))
       (set_nextTimer (nextTimer w + 1)
          (set_timeouts (<[nextTimer w := (k, d)]> (timeouts w)) w)).
Proof. reflexivity. Qed.

(** Firing a pending timeout removes it and runs its continuation. *)
Lemma fireTimeout_pending h k d w :
  timeouts w !! h = Some (k, d) ->
  exec (fireTimeout h) w =
  exec (runContinuation k) (set_timeouts (delete h (timeouts w)) w).
Proof. intros Hp. unfold fireTimeout. rewrite exec_gets, Hp. reflexivity. Qed.

(** What [initJanusConnection] leaves: a session of the library for the
    server URL of its render, state Connecting, no error. *)
Lemma initJanusConnection_effect rd w :
  let w' := exec (initJanusConnection rd) w in
  janusRef w' = Some (lib_new (janusLib w) (serverUrl (stream (r_state rd)))) /\
  streamState w' = {|
    connectionState := CONNECTING;
    isConnected := false;
    error := None;
    videoStats := videoStats (streamState w);
    shouldReconnect := shouldReconnect (streamState w) |} /\
  last (calls w') = Some (NewJanus (serverUrl (stream (r_state rd)))) /\
  streamingRef w' = streamingRef w.
Proof.
  cbv zeta. unfold initJanusConnection.
  rewrite exec_seq by auto with js. rewrite exec_seq by auto with js.
  rewrite exec_gets. cbv zeta. unfold call. rewrite exec_modify.
  set (w1 := exec (log _ _) w).
  set (w2 := exec (updateStreamState _) w1).
  assert (Hlib : janusLib w2 = janusLib w).
  { unfold w2. frame_rw. unfold w1. frame. }
  assert (Hss : streamState w2 = applyUpdate (streamState w1) _)
    by apply updateStreamState_effect.
  assert (Hs1 : streamState w1 = streamState w) by (unfold w1; frame).
  assert (Hsr : streamingRef w2 = streamingRef w).
  { unfold w2. frame_rw. unfold w1. frame. }
  cbn. rewrite Hlib. split; [reflexivity | split; [| split]].
  - rewrite Hss, Hs1. reflexivity.
  - apply last_snoc.
  - exact Hsr.
Qed.

(** The stage between the two timers of a restart: cleanup, then the
    second timer. *)
Lemma restart_stage_two (pre : M unit) k w :
  safe pre ->
  let w' := exec (pre ;; cleanupJanus ;; h <- setTimeout k 1000 ;; ret tt) w in
  exists h2,
    timeouts w' !! h2 = Some (k, 1000) /\
    janusRef w' = None /\ streamingRef w' = None /\
    janusLib w' = janusLib (exec pre w).
Proof.
  intros Hpre. cbv zeta.
  rewrite exec_seq by exact Hpre. rewrite exec_seq by auto with js.
  rewrite exec_setTimeout.
  set (wb := exec cleanupJanus (exec pre w)).
  exists (nextTimer wb). cbn.
  split; [apply lookup_insert_eq | split; [| split]].
  - exact (f_equal o_janusRef (cleanupJanus_observe _)).
  - exact (f_equal o_streamingRef (cleanupJanus_observe _)).
  - unfold wb. frame.
Qed.

(** The restart handler leaves its first continuation pending and the
    session in place. *)
Lemma restart_stage_one rd w :
  exists h1,
    timeouts (exec (handleRestartStream rd) w) !! h1 = Some (KRestartCleanup rd, 500) /\
    janusRef (exec (handleRestartStream rd) w) = janusRef w /\
    janusLib (exec (handleRestartStream rd) w) = janusLib w.
Proof.
  unfold handleRestartStream. rewrite exec_seq by auto with js.
  rewrite exec_seq by auto with js. rewrite exec_setTimeout.
  eexists. split; [apply lookup_insert_eq | split].
  - change (janusRef (exec stopStream (exec (log "Manual stream restart requested" Info) w))
            = janusRef w).
    frame_rw. frame.
  - change (janusLib (exec stopStream (exec (log "Manual stream restart requested" Info) w))
            = janusLib w).
    frame_rw. frame.
Qed.

(** Firing the first continuation of a manual restart. *)
Lemma restart_fired_one rd h1 w1 :
  timeouts w1 !! h1 = Some (KRestartCleanup rd, 500) ->
  exists h2,
    timeouts (exec (fireTimeout h1) w1) !! h2 = Some (KRestartInit rd, 1000) /\
    janusRef (exec (fireTimeout h1) w1) = None /\
    streamingRef (exec (fireTimeout h1) w1) = None /\
    janusLib (exec (fireTimeout h1) w1) = janusLib w1.
Proof.
  intros Hp1. rewrite (fireTimeout_pending h1 _ _ w1 Hp1).
  destruct (restart_stage_two (log "Performing full Janus reconnection" Info)
              (KRestartInit rd) (set_timeouts (delete h1 (timeouts w1)) w1)
              (log_safe _ _)) as (h2 & Hp2 & Hj2 & Hs2 & Hlib2).
  exists h2. split; [exact Hp2 | split; [exact Hj2 | split; [exact Hs2 |]]].
  etransitivity; [exact Hlib2 |]. frame_rw. reflexivity.
Qed.

(** Firing the second continuation of a restart or of a reconnect. *)
Lemma restart_fired_two rd h2 d w2 :
  timeouts w2 !! h2 = Some (KRestartInit rd, d) \/
  timeouts w2 !! h2 = Some (KReconnectInit rd, d) ->
  let w3 := exec (fireTimeout h2) w2 in
  janusRef w3 = Some (lib_new (janusLib w2) (serverUrl (stream (r_state rd)))) /\
  streamingRef w3 = streamingRef w2 /\
  streamState w3 = {|
    connectionState := CONNECTING;
    isConnected := false;
    error := None;
    videoStats := videoStats (streamState w2);
    shouldReconnect := shouldReconnect (streamState w2) |} /\
  last (calls w3) = Some (NewJanus (serverUrl (stream (r_state rd)))).
Proof.
  intros Hp. cbv zeta.
  assert (Hf : exec (fireTimeout h2) w2 =
               exec (initJanusConnection rd) (set_timeouts (delete h2 (timeouts w2)) w2)).
  { destruct Hp as [Hp|Hp]; exact (fireTimeout_pending h2 _ _ w2 Hp). }
  rewrite Hf.
  destruct (initJanusConnection_effect rd (set_timeouts (delete h2 (timeouts w2)) w2))
    as (Hj3 & Hss3 & Hc3 & Hs3).
  split; [exact Hj3 | split; [exact Hs3 | split; [exact Hss3 | exact Hc3]]].
Qed.

(** X10.  The manual restart composes into a reconnect.  From any world,
    the restart handler leaves the session in place and its 500 ms
    continuation pending; firing that one runs the cleanup (no session, no
    plugin handle left) and leaves the 1000 ms continuation pending;
    firing that one opens a session of the library for the server URL of
    the render the handler was created in, in state Connecting, with the
    connected flag and the error cleared, and no plugin handle yet. *)
Theorem manual_restart_reconnects (rd : Render) (w : World) :
  exists h1 h2,
    let w1 := exec (handleRestartStream rd) w in
    let w2 := exec (fireTimeout h1) w1 in
    let w3 := exec (fireTimeout h2) w2 in
    timeouts w1 !! h1 = Some (KRestartCleanup rd, 500) /\
    janusRef w1 = janusRef w /\
    timeouts w2 !! h2 = Some (KRestartInit rd, 1000) /\
    janusRef w2 = None /\ streamingRef w2 = None /\
    janusRef w3 = Some (lib_new (janusLib w) (serverUrl (stream (r_state rd)))) /\
    streamingRef w3 = None /\
    connectionState (streamState w3) = CONNECTING /\
    isConnected (streamState w3) = false /\
    error (streamState w3) = None /\
    last (calls w3) = Some (NewJanus (serverUrl (stream (r_state rd)))).
Proof.
  destruct (restart_stage_one rd w) as (h1 & Hp1 & Hj1 & Hlib1).
  destruct (restart_fired_one rd h1 _ Hp1) as (h2 & Hp2 & Hj2 & Hs2 & Hlib2).
  destruct (restart_fired_two rd h2 1000 _ (or_introl Hp2)) as (Hj3 & Hs3 & Hss3 & Hc3).
  exists h1, h2. cbv zeta.
  split; [exact Hp1 | split; [exact Hj1 | split; [exact Hp2 |]]].
  split; [exact Hj2 | split; [exact Hs2 |]].
  split; [by rewrite Hj3, Hlib2, Hlib1 | split; [by rewrite Hs3 |]].
  rewrite Hss3. cbn [connectionState isConnected error].
  split; [reflexivity | split; [reflexivity | split; [reflexivity | exact Hc3]]].
Qed.





(** ** Unmount *)

Lemma reconnectEffectCleanup_safe c : safe (reconnectEffectCleanup c).
Proof. safe_walk. Qed.

Ltac stays_empty :=
  let w := fresh "w" in
  let Hr := fresh "Hr" in
  let Hi := fresh "Hi" in
  intros w [Hr Hi];
  first [ exact (conj Hr Hi)
        | split; [exact Hr | cbn [intervals set_intervals set_timeouts];
                             rewrite Hi; apply delete_empty] ].

Lemma reconnectEffectCleanup_keeps_stopped c :
  inv SamplerStopped (reconnectEffectCleanup c).
Proof. inv_walk stays_empty. Qed.

(** X12.  Unmounting tears the controller down.  In the world reached by
    any sequence of events, the unmount returns normally and leaves no
    video element, no session, no plugin handle, no live sampler and no
    stored timer handle, the stream state Disconnected with the connected
    flag and the stats cleared, and no cleanup function of the reconnect
    effect to run; and when such a cleanup function was held, the timer
    whose handle it kept is no longer pending, nor is the follow-up timer
    once its handle was set. *)
Theorem unmount_tears_down (lib : JanusLibrary) (st : PanelState) (evs : list Event) :
  let w := run evs (initialWorld lib st) in
  let w' := exec unmount w in
  result unmount w = Ok tt /\
  videoRef w' = None /\ janusRef w' = None /\ streamingRef w' = None /\
  SamplerStopped w' /\
  connectionState (streamState w') = DISCONNECTED /\
  isConnected (streamState w') = false /\
  videoStats (streamState w') = None /\
  reconnectCleanup w' = None /\
  (forall c v, reconnectCleanup w = Some c -> reconnectVars w !! c = Some v ->
     timeouts w' !! v_timeout v = None /\
     (forall h, v_reconnectTimeout v = Some h -> h <> 0 -> timeouts w' !! h = None)).
Proof.
  intros w w'. pose proof (run_TimerOk lib st evs) as Hok. fold w in Hok.
  split; [apply safe_unit_result; unfold unmount, mountEffectCleanup; safe_walk |].
  subst w'. unfold unmount, mountEffectCleanup. rewrite exec_modify.
  rewrite exec_seq by auto with js.
  set (w0 := set_videoRef None w).
  set (wc := exec cleanupJanus w0).
  pose proof (cleanupJanus_observe w0) as Hobs. fold wc in Hobs.
  assert (Hstop : SamplerStopped wc).
  { destruct (triple_exec _ _ _ w0 cleanupJanus_stops_sampler Hok) as [a [_ H]]. exact H. }
  assert (Hrc : reconnectCleanup wc = reconnectCleanup w) by (unfold wc; frame_rw; reflexivity).
  assert (Hrv : reconnectVars wc = reconnectVars w) by (unfold wc; frame_rw; reflexivity).
  assert (Hss : streamState wc = applyUpdate (streamState w0) (resetTo DISCONNECTED))
    by exact (f_equal o_streamState Hobs).
  assert (Hv : videoRef wc = None) by exact (f_equal o_videoRef Hobs).
  assert (Hj : janusRef wc = None) by exact (f_equal o_janusRef Hobs).
  assert (Hs : streamingRef wc = None) by exact (f_equal o_streamingRef Hobs).
  unfold runReconnectCleanup. rewrite exec_gets, Hrc.
  destruct (reconnectCleanup w) as [c|] eqn:Hc.
  - rewrite exec_seq by apply reconnectEffectCleanup_safe.
    change (exec (modify (set_reconnectCleanup None)) ?x)
      with (set_reconnectCleanup None x).
    cbn [videoRef janusRef streamingRef streamState reconnectCleanup timeouts
         set_reconnectCleanup].
    split; [frame_rw; exact Hv | split; [frame_rw; exact Hj | split; [frame_rw; exact Hs |]]].
    split.
    { exact (inv_exec _ _ wc (reconnectEffectCleanup_keeps_stopped c) Hstop). }
    assert (Hss' : streamState (exec (reconnectEffectCleanup c) wc) = streamState wc) by frame.
    rewrite Hss', Hss.
    do 4 (split; [reflexivity |]).
    intros c' v [= <-] Hv'. rewrite <- Hrv in Hv'.
    exact (reconnect_cleanup_cancels c v wc Hv').
  - change (exec (ret tt) wc) with wc. rewrite Hss.
    split; [exact Hv | split; [exact Hj | split; [exact Hs | split; [exact Hstop |]]]].
    do 3 (split; [reflexivity |]).
    split; [by rewrite Hrc | intros c v [=]].
Qed.

Lemma unmount_tears_down_witness :
  let w := run (demoSession ++ [EvReconnectEffect reconnectRender])
               (initialWorld demoLibrary demoSettings) in
  timeouts (exec unmount w) !! 16 = None.
Proof.
  cbv zeta.
  generalize (unmount_tears_down demoLibrary demoSettings
                (demoSession ++ [EvReconnectEffect reconnectRender])).
  cbv zeta.
  assert (Hc : reconnectCleanup (run (demoSession ++ [EvReconnectEffect reconnectRender])
                                     (initialWorld demoLibrary demoSettings)) = Some 0%nat)
    by (vm_compute; reflexivity).
  assert (Hv : reconnectVars (run (demoSession ++ [EvReconnectEffect reconnectRender])
                                  (initialWorld demoLibrary demoSettings)) !! 0%nat
               = Some {| v_timeout := 16; v_reconnectTimeout := None |})
    by (vm_compute; reflexivity).
  revert Hc Hv.
  generalize (run (demoSession ++ [EvReconnectEffect reconnectRender])
                  (initialWorld demoLibrary demoSettings)) as w.
  intros w Hc Hv (_ & _ & _ & _ & _ & _ & _ & _ & _ & Hcancel).
  exact (proj1 (Hcancel _ _ Hc Hv)).
Defined.

(** ** Connecting *)

Lemma exec_try_catch_throw {A} (m : M A) h e w w1 :
  m w = (Throw e, w1) -> exec (try_catch m h) w = exec (h e) w1.
Proof. intros Hm. unfold exec, try_catch. rewrite Hm. reflexivity. Qed.

(** X13.  The mount effect.  It asks the library to initialize, with debug
    output "all" exactly when the settings of its render say so.  When
    [Janus.init] throws, the exception is caught: the effect returns
    normally, the state is Disconnected with a [janus]-sourced error that
    carries the exception, and no session is created.  When it returns,
    the effect goes on to open a session for the server URL of its render:
    state Connecting, connected flag and error cleared. *)
Theorem mount_effect_initializes (rd : Render) (w : World) :
  let w' := exec (mountEffect rd) w in
  result (mountEffect rd) w = Ok tt /\
  (forall e, lib_init (janusLib w) = Throw e ->
     connectionState (streamState w') = DISCONNECTED /\
     error (streamState w') = Some {| source := SrcJanus; message := e |} /\
     janusRef w' = janusRef w /\
     calls w' = (calls w ++ [JanusInit (debug (stream (r_state rd)))])%list) /\
  (lib_init (janusLib w) = Ok tt ->
     janusRef w' = Some (lib_new (janusLib w) (serverUrl (stream (r_state rd)))) /\
     connectionState (streamState w') = CONNECTING /\
     isConnected (streamState w') = false /\
     error (streamState w') = None /\
     calls w' = (calls w ++ [JanusInit (debug (stream (r_state rd)));
                             NewJanus (serverUrl (stream (r_state rd)))])%list).
Proof.
  intros w'. split; [apply safe_unit_result; safe_walk |].
  subst w'. unfold mountEffect. rewrite exec_seq by auto with js.
  set (w1 := exec (updateStreamState _) w).
  assert (Hlib : janusLib w1 = janusLib w) by (unfold w1; frame).
  assert (Hj1 : janusRef w1 = janusRef w) by (unfold w1; frame).
  assert (Hc1 : calls w1 = calls w) by (unfold w1; frame).
  clearbody w1. split.
  - intros e He.
    rewrite (exec_try_catch_throw _ _ e w1
               (set_calls (calls w1 ++ [JanusInit (debug (stream (r_state rd)))]) w1)).
    2:{ unfold bind, call, modify, gets. cbn. rewrite Hlib, He. reflexivity. }
    rewrite exec_seq by auto with js. rewrite updateStreamState_effect.
    split; [reflexivity | split; [reflexivity | split]].
    + frame_rw. frame_rw. exact Hj1.
    + frame_rw. frame_rw. cbn. by rewrite Hc1.
  - intros Hok.
    assert (Hbody : exec (try_catch
                (call (JanusInit (debug (stream (r_state rd)))) ;;
                 lib <- gets janusLib ;;
                 match lib_init lib with
                 | Ok _ => log "Janus library initialized" Info ;; initJanusConnection rd
                 | Throw e => throw e
                 end)
                (fun e => log ("Failed to initialize Janus library: " +:+ e) Error ;;
                          updateStreamState (failWith SrcJanus e))) w1
              = exec (initJanusConnection rd)
                  (exec (log "Janus library initialized" Info)
                     (set_calls (calls w1 ++ [JanusInit (debug (stream (r_state rd)))]) w1))).
    { assert (Hs : safe (log "Janus library initialized" Info ;; initJanusConnection rd))
        by safe_walk.
      rewrite <- exec_seq by auto with js.
      destruct (safe_result _
                  (set_calls (calls w1 ++ [JanusInit (debug (stream (r_state rd)))]) w1) Hs)
        as [[] Heq].
      unfold exec at 1, try_catch, bind at 1 2, call, modify, gets. cbn.
      rewrite Hlib, Hok. rewrite Heq. reflexivity. }
    rewrite Hbody.
    set (w2 := exec (log _ _) (set_calls _ w1)).
    assert (Hlib2 : janusLib w2 = janusLib w) by (unfold w2; frame_rw; exact Hlib).
    assert (Hc2 : calls w2 = (calls w ++ [JanusInit (debug (stream (r_state rd)))])%list).
    { unfold w2. frame_rw. cbn. by rewrite Hc1. }
    destruct (initJanusConnection_effect rd w2) as (Hj3 & Hss3 & _ & _).
    split; [by rewrite Hj3, Hlib2 |]. rewrite Hss3.
    do 3 (split; [reflexivity |]).
    unfold initJanusConnection. rewrite exec_seq by auto with js.
    rewrite exec_seq by auto with js. rewrite exec_gets. cbv zeta.
    unfold call. rewrite exec_modify. cbn [exec modify snd calls set_janusRef set_calls].
    frame_rw. frame_rw. rewrite Hc2, <- app_assoc. reflexivity.
Qed.

Lemma mount_effect_initializes_witness :
  connectionState (streamState (exec (mountEffect demoRender)
                                     (initialWorld failingLibrary demoSettings)))
    = DISCONNECTED /\
  connectionState (streamState (exec (mountEffect demoRender)
                                     (initialWorld demoLibrary demoSettings)))
    = CONNECTING.
Proof.
  split.
  - exact (proj1 (proj1 (proj2 (mount_effect_initializes demoRender
                                  (initialWorld failingLibrary demoSettings))) _ eq_refl)).
  - exact (proj1 (proj2 (proj2 (proj2 (mount_effect_initializes demoRender
                                  (initialWorld demoLibrary demoSettings))) eq_refl))).
Defined.

(** X14.  The session's success callback attaches only to a session that
    is still there.  With a session it issues one attach to
    "janus.plugin.streaming" under an opaque id that starts with
    "foxglovestreamingtest-".  When the callback arrives after a cleanup
    it still moves the state to Attaching, but attaches nothing. *)
Theorem session_success_attaches (w : World) :
  (forall j, janusRef w = Some j ->
     calls (exec onJanusSuccess w) =
     (calls w ++ [JanusAttach "janus.plugin.streaming"
                    ("foxglovestreamingtest-" +:+ lib_randomString (janusLib w) 12)])%list /\
     connectionState (streamState (exec onJanusSuccess w)) = ATTACHING) /\
  (let w0 := exec cleanupJanus w in
   calls (exec onJanusSuccess w0) = calls w0 /\
   connectionState (streamState (exec onJanusSuccess w0)) = ATTACHING /\
   streamingRef (exec onJanusSuccess w0) = None).
Proof.
  assert (Hstep : forall w,
            exec onJanusSuccess w =
            let w2 := exec (updateStreamState {|
                              u_connectionState := Some ATTACHING;
                              u_isConnected := None; u_error := None;
                              u_videoStats := None; u_shouldReconnect := None |})
                        (exec (log "Connected to Janus server, attaching plugin" Info) w) in
            match janusRef w with
            | Some _ =>
                set_calls (calls w2 ++
                           [JanusAttach "janus.plugin.streaming"
                              ("foxglovestreamingtest-" +:+ lib_randomString (janusLib w) 12)])
                          w2
            | None => w2
            end).
  { intros w1. unfold onJanusSuccess. rewrite exec_seq by auto with js.
    rewrite exec_seq by auto with js. rewrite exec_gets. cbv zeta.
    set (w2 := exec (updateStreamState _) _).
    assert (Hj : janusRef w2 = janusRef w1) by (unfold w2; frame_rw; frame).
    assert (Hl : janusLib w2 = janusLib w1) by (unfold w2; frame_rw; frame).
    rewrite Hj. destruct (janusRef w1); [| reflexivity].
    rewrite exec_gets, Hl. reflexivity. }
  assert (Hstate : forall w1,
            connectionState (streamState
              (exec (updateStreamState {|
                       u_connectionState := Some ATTACHING;
                       u_isConnected := None; u_error := None;
                       u_videoStats := None; u_shouldReconnect := None |})
                    (exec (log "Connected to Janus server, attaching plugin" Info) w1)))
            = ATTACHING).
  { intros w1. rewrite updateStreamState_effect. reflexivity. }
  split.
  - intros j Hj. rewrite Hstep. cbv zeta. rewrite Hj.
    cbn [calls streamState set_calls]. split; [| apply Hstate].
    f_equal. frame_rw. frame.
  - cbv zeta. set (w0 := exec cleanupJanus w).
    assert (Hj : janusRef w0 = None) by exact (f_equal o_janusRef (cleanupJanus_observe w)).
    assert (Hs : streamingRef w0 = None)
      by exact (f_equal o_streamingRef (cleanupJanus_observe w)).
    rewrite Hstep. cbv zeta. rewrite Hj.
    split; [frame_rw; frame | split; [apply Hstate |]].
    frame_rw. frame_rw. exact Hs.
Qed.

Lemma session_success_attaches_witness :
  let w := exec (mountEffect demoRender) (initialWorld demoLibrary demoSettings) in
  calls (exec onJanusSuccess w) =
  (calls w ++ [JanusAttach "janus.plugin.streaming" "foxglovestreamingtest-aB3dE6gH9jK2"])%list.
Proof.
  cbv zeta.
  assert (Hj : janusRef (exec (mountEffect demoRender) (initialWorld demoLibrary demoSettings))
               = Some (lib_new demoLibrary "http://localhost:8088/janus"))
    by (vm_compute; reflexivity).
  assert (Hl : janusLib (exec (mountEffect demoRender) (initialWorld demoLibrary demoSettings))
               = demoLibrary)
    by (vm_compute; reflexivity).
  revert Hj Hl.
  generalize (exec (mountEffect demoRender) (initialWorld demoLibrary demoSettings)) as w.
  intros w Hj Hl.
  rewrite (proj1 (proj1 (session_success_attaches w) _ Hj)), Hl. reflexivity.
Defined.

(** X15.  A successful attach always ends in a "watch" request.  The
    callback stores the plugin handle and starts the stream at once, so
    the missing-handle branch of [startStream] is never taken from here:
    the state becomes Watching, the error is left as it was, and exactly
    one request is sent, "watch" with the stream id of the render, on the
    handle just stored. *)
Theorem attach_success_watches (rd : Render) (pluginHandle : PluginHandle) (w : World) :
  let w' := exec (onAttachSuccess rd pluginHandle) w in
  result (onAttachSuccess rd pluginHandle) w = Ok tt /\
  streamingRef w' = Some pluginHandle /\
  connectionState (streamState w') = WATCHING /\
  error (streamState w') = error (streamState w) /\
  calls w' = (calls w ++ [PluginSend (handle_id pluginHandle)
                            (ReqWatch (streamId (stream (r_state rd)))) None])%list.
Proof.
  intros w'. split; [apply safe_unit_result; safe_walk |].
  subst w'. unfold onAttachSuccess. rewrite exec_seq by auto with js.
  rewrite exec_modify. unfold startStream. rewrite exec_gets.
  cbn [streamingRef set_streamingRef]. rewrite exec_seq by auto with js.
  set (w1 := exec (log _ _) w).
  assert (Hss : streamState w1 = streamState w) by (unfold w1; frame).
  assert (Hc : calls w1 = calls w) by (unfold w1; frame).
  clearbody w1.
  cbn [exec call modify snd streamingRef streamState calls set_calls].
  split; [frame_rw; reflexivity | split; [| split]].
  - rewrite updateStreamState_effect. reflexivity.
  - rewrite updateStreamState_effect. cbn. by rewrite Hss.
  - frame_rw. cbn. by rewrite Hc.
Qed.

(** ** Play attempts *)

Ltac no_new_play :=
  let w := fresh "w" in
  let H := fresh "H" in
  let h := fresh "h" in
  let m := fresh "m" in
  let d := fresh "d" in
  let Hl := fresh "Hl" in
  intros w H h m d Hl;
  cbn [timeouts set_videoRef set_janusRef set_streamingRef set_bitrateTimerRef
       set_state set_streamState set_logs set_timeouts set_intervals set_nextTimer
       set_mediaStreams set_nextStream set_reconnectVars set_nextVars
       set_reconnectCleanup set_janusLib set_calls] in Hl;
  first [ exact (H _ _ _ Hl)
        | rewrite lookup_insert in Hl; case_decide;
          [discriminate Hl | exact (H _ _ _ Hl)] ].

Lemma connected_closure_never_plays rd track mid w :
  isConnected (r_streamState rd) = true ->
  inv (noNewPlayAttempt w) (onremotetrack rd track mid true).
Proof.
  intros Hflag. unfold onremotetrack. rewrite Hflag. cbn [negb when].
  inv_walk no_new_play.
Qed.

(** The callback for an active video track on a mounted element reaches
    its last statement, the play attempt, without throwing. *)
Lemma active_video_track_tail rd track mid el (Q : World -> Prop) :
  kind track = VideoTrack ->
  triple (fun _ => True)
         (when (negb (isConnected (r_streamState rd)))
               (log ("Playing video track: " +:+ track_id track) Info ;;
                _ <- setTimeout (KPlay mid) 100 ;;
                ret tt))
         (fun _ => Q) (fun _ _ => False) ->
  triple (fun w => videoRef w = Some el) (onremotetrack rd track mid true)
         (fun _ => Q) (fun _ _ => False).
Proof.
  intros Hk Htail.
  assert (Hrest : forall r,
            triple (fun _ => True)
              (existingVideoTracks <- gets (fun w => getVideoTracks (derefStream w r)) ;;
               forEach existingVideoTracks (fun t => streamModify r (removeTrack t)) ;;
               streamModify r (addTrack track) ;;
               when (negb (isConnected (r_streamState rd)))
                 (log ("Playing video track: " +:+ track_id track) Info ;;
                  _ <- setTimeout (KPlay mid) 100 ;;
                  ret tt))
              (fun _ => Q) (fun _ _ => False)).
  { intros r.
    eapply triple_bind with (R := fun _ _ => True); [apply triple_gets; auto |].
    intros ts.
    eapply triple_bind with (R := fun _ _ => True).
    { assert (Hs : safe (forEach ts (fun t => streamModify r (removeTrack t))))
        by safe_walk.
      exact Hs. }
    intros ?. eapply triple_bind with (R := fun _ _ => True); [| intros ?; exact Htail].
    assert (Hs : safe (streamModify r (addTrack track))) by safe_walk. exact Hs. }
  unfold onremotetrack. cbn [negb]. rewrite Hk.
  eapply triple_bind with (R := fun _ w => videoRef w = Some el).
  { apply inv_safe_triple; [inv_walk untouched | safe_walk]. }
  intros ?. eapply triple_bind; [apply videoRefCurrent_mounted |].
  intros el0.
  eapply triple_bind
    with (R := fun _ w => exists r, videoRef w = Some (set_srcObject (Some r) el)).
  { intros w [-> Hw]. destruct (srcObject el) as [r|] eqn:Hsrc; cbn.
    - exists r. rewrite Hw. destruct el; unfold set_srcObject; cbn in *.
      by rewrite Hsrc.
    - eexists. reflexivity. }
  intros ? w [r Hw].
  pose proof (videoRefCurrent_mounted _ w Hw) as Hcur.
  unfold bind at 1. destruct (videoRefCurrent w) as [[el'|?] w1]; [| contradiction].
  destruct Hcur as [-> Hw1]. cbn [srcObject set_srcObject].
  exact (Hrest r w1 Logic.I).
Qed.

(** X16.  Play is attempted only from a callback created while the panel
    was not yet connected.  A callback whose render has the connected flag
    set never schedules a play attempt.  A callback whose render does not
    have it schedules, for an active video track on a mounted element, one
    attempt for the [mid] of the track after 100 ms.  When a pending
    attempt fires it calls [play()] if the element is still mounted, and
    otherwise only logs that the element was not found. *)
Theorem play_attempts (rd : Render) (track : MediaStreamTrack) (mid : string) (w : World) :
  (isConnected (r_streamState rd) = true ->
   noNewPlayAttempt w (exec (onremotetrack rd track mid true) w)) /\
  (isConnected (r_streamState rd) = false -> kind track = VideoTrack ->
   is_Some (videoRef w) ->
   exists h, timeouts (exec (onremotetrack rd track mid true) w) !! h
             = Some (KPlay mid, 100)) /\
  (forall h d, timeouts w !! h = Some (KPlay mid, d) ->
     (is_Some (videoRef w) ->
      calls (exec (fireTimeout h) w) = (calls w ++ [VideoPlay])%list) /\
     (videoRef w = None ->
      calls (exec (fireTimeout h) w) = calls w /\
      last (logs (exec (fireTimeout h) w))
        = Some {| log_message := "Video element not found, cannot play track";
                  log_type := Error |})).
Proof.
  split; [| split].
  - intros Hflag.
    apply (inv_exec _ _ w (connected_closure_never_plays rd track mid w Hflag)).
    intros h m d H. exact H.
  - intros Hflag Hk [el Hv].
    assert (Htail : triple (fun _ => True)
              (when (negb (isConnected (r_streamState rd)))
                 (log ("Playing video track: " +:+ track_id track) Info ;;
                  _ <- setTimeout (KPlay mid) 100 ;;
                  ret tt))
              (fun _ w' => exists h, timeouts w' !! h = Some (KPlay mid, 100))
              (fun _ _ => False)).
    { rewrite Hflag. cbn [negb when]. intros w0 _. cbn.
      eexists. apply lookup_insert_eq. }
    destruct (triple_exec _ _ _ w
                (active_video_track_tail rd track mid el _ Hk Htail) Hv)
      as [[] [_ H]].
    exact H.
  - intros h d Hp. rewrite (fireTimeout_pending h _ _ w Hp). cbn [runContinuation].
    rewrite exec_gets. cbn [videoRef set_timeouts]. split.
    + intros [el Hv]. rewrite Hv. reflexivity.
    + intros Hv. rewrite Hv. split; [frame_rw; reflexivity | apply last_snoc].
Qed.

Lemma play_attempts_witness :
  noNewPlayAttempt demoConnected
    (exec (onremotetrack connectedRender videoB "v1" true) demoConnected) /\
  (exists h, timeouts (exec (onremotetrack demoRender videoB "v1" true)
                            (initialWorld demoLibrary demoSettings)) !! h
             = Some (KPlay "v1", 100)) /\
  calls (exec (fireTimeout 1)
              (set_timeouts {[ 1 := (KPlay "v1", 100) ]}
                            (initialWorld demoLibrary demoSettings)))
  = [VideoPlay].
Proof.
  split; [| split].
  - exact (proj1 (play_attempts connectedRender videoB "v1" demoConnected) eq_refl).
  - refine (proj1 (proj2 (play_attempts demoRender videoB "v1"
                            (initialWorld demoLibrary demoSettings))) eq_refl eq_refl _).
    cbn. eauto.
  - refine (proj1 (proj2 (proj2 (play_attempts demoRender videoB "v1"
              (set_timeouts {[ 1 := (KPlay "v1", 100) ]}
                            (initialWorld demoLibrary demoSettings)))) 1 100 _) _).
    + cbn. apply lookup_singleton_eq.
    + cbn. eauto.
Defined.

(** ** What stays on screen *)

(** X17.  Cleanup does not clear a surfaced error; the next connect does.
    After [cleanupJanus] the status overlay is shown and still carries the
    message of the error that was there before, under the label "Not
    connected"; after the [initJanusConnection] that follows, the error is
    gone and the overlay reads "Connecting to Janus server...". *)
Theorem error_outlives_cleanup (rd : Render) (e : ConnectionError) (w : World) :
  error (streamState w) = Some e ->
  let w1 := exec cleanupJanus w in
  let w2 := exec (initJanusConnection rd) w1 in
  error (streamState w1) = Some e /\
  overlayDisplay (streamState w1) = "block" /\
  overlayText (streamState w1) = "Not connected: " +:+ message e /\
  error (streamState w2) = None /\
  overlayText (streamState w2) = "Connecting to Janus server...".
Proof.
  intros He w1 w2.
  assert (H1 : streamState w1 = applyUpdate (streamState w) (resetTo DISCONNECTED))
    by exact (f_equal o_streamState (cleanupJanus_observe w)).
  destruct (initJanusConnection_effect rd w1) as (_ & H2 & _). fold w2 in H2.
  rewrite H1, H2. unfold overlayDisplay, overlayText. cbn. rewrite He.
  repeat split.
Qed.

Lemma error_outlives_cleanup_witness :
  let w := exec (onJanusError {| err_message := None;
                                 err_string := "Lost connection to the server" |})
                demoConnected in
  overlayText (streamState (exec cleanupJanus w))
  = "Not connected: Lost connection to the server".
Proof.
  cbv zeta.
  assert (He : error (streamState
                        (exec (onJanusError {| err_message := None;
                                               err_string := "Lost connection to the server" |})
                              demoConnected))
               = Some {| source := SrcJanus; message := "Lost connection to the server" |}).
  { unfold onJanusError. rewrite updateStreamState_effect. reflexivity. }
  revert He.
  generalize (exec (onJanusError {| err_message := None;
                                    err_string := "Lost connection to the server" |})
                   demoConnected) as w.
  intros w He.
  exact (proj1 (proj2 (proj2 (error_outlives_cleanup demoRender _ w He)))).
Defined.

(** ** The log *)

Ltac log_extends :=
  let w := fresh "w" in
  let added := fresh "added" in
  let H := fresh "H" in
  intros w [added H];
  first [ exists added; exact H
        | eexists; cbn [logs set_logs]; rewrite H, <- app_assoc; reflexivity ].

Lemma handle_extends_log w0 ev : inv (logExtends w0) (handle ev).
Proof. destruct ev; cbn [handle]; inv_walk log_extends. Qed.

(** X18.  The log is append-only.  Whatever events the panel handles, from
    any world, the log afterwards is the log before with entries added at
    its end: no entry is ever dropped, rewritten or reordered. *)
Theorem log_is_append_only (evs : list Event) (w : World) :
  logExtends w (run evs w).
Proof.
  apply run_inv; [apply handle_extends_log |].
  exists []. by rewrite app_nil_r.
Qed.

(** ** A track without an element *)

(** X19.  An active video track delivered while the video element is not
    mounted makes the callback throw, on the first access through
    [videoRef.current!]; by then it has only written a log entry, and the
    observable state is what it was. *)
Theorem active_video_track_unmounted (rd : Render) (track : MediaStreamTrack)
    (mid : string) (w : World) :
  videoRef w = None ->
  kind track = VideoTrack ->
  result (onremotetrack rd track mid true) w
    = Throw "TypeError: Cannot read properties of null (reading 'srcObject')" /\
  observe (exec (onremotetrack rd track mid true) w) = observe w /\
  calls (exec (onremotetrack rd track mid true) w) = calls w.
Proof.
  intros Hv Hk.
  destruct (safe_result _ w (log_safe ("Received video track: " +:+ track_id track) Info))
    as [[] Hlog].
  set (w1 := exec (log _ _) w) in Hlog.
  assert (Hv1 : videoRef w1 = None) by (unfold w1; frame_rw; exact Hv).
  assert (Hobs : observe w1 = observe w) by (unfold observe, w1; f_equal; frame).
  assert (Hc : calls w1 = calls w) by (unfold w1; frame).
  clearbody w1.
  assert (Hrun : onremotetrack rd track mid true w
                 = (Throw "TypeError: Cannot read properties of null (reading 'srcObject')",
                    w1)).
  { unfold onremotetrack. cbn [negb]. rewrite Hk. unfold bind at 1. rewrite Hlog.
    unfold videoRefCurrent, bind, gets. cbn. rewrite Hv1. reflexivity. }
  unfold result, exec. rewrite Hrun. cbn [fst snd].
  split; [reflexivity | split; assumption].
Qed.

Lemma active_video_track_unmounted_witness :
  result (onremotetrack demoRender videoA "v0" true)
         (set_videoRef None (initialWorld demoLibrary demoSettings))
  = Throw "TypeError: Cannot read properties of null (reading 'srcObject')".
Proof.
  exact (proj1 (active_video_track_unmounted demoRender videoA "v0"
                  (set_videoRef None (initialWorld demoLibrary demoSettings))
                  eq_refl eq_refl)).
Defined.

(** ** From mount to the first sample *)

Lemma run_snoc evs ev w : run (evs ++ [ev]) w = exec (handle ev) (run evs w).
Proof. unfold run. rewrite fold_left_app. reflexivity. Qed.

(** X20.  The whole way up.  For every library whose [Janus.init]
    returns, every settings, plugin handle and video track: mount the
    panel, let the session and the attach succeed, deliver the active video
    track to a callback created before the panel was connected, let its
    play attempt fire, let the element report a size with a width, and
    fulfil [play()].  Then the panel is Connected with the connected flag
    set and no error; the stats are the size of the element with the
    bitrate the handle reports for the track; the surface shows that track
    and no other video track; a sampler handle is stored; and the calls
    issued are, in order, the library init, the session for the configured
    server URL, the attach, the "watch" for the configured stream id, and
    [play()]. *)
Theorem mount_to_first_sample (lib : JanusLibrary) (st : PanelState) (rd : Render)
    (h : PluginHandle) (track : MediaStreamTrack) (mid b : string) (wd ht : Z) :
  lib_init lib = Ok tt ->
  isConnected (r_streamState rd) = false ->
  kind track = VideoTrack ->
  wd <> 0 ->
  getBitrate h mid = Ok b ->
  exists hp,
    let w := run [EvMountEffect rd; EvJanusSuccess; EvAttachSuccess rd h;
                  EvRemoteTrack rd track mid true; EvTimeout hp;
                  EvVideoResized wd ht; EvPlayResolved mid]
                 (initialWorld lib st) in
    connectionState (streamState w) = CONNECTED /\
    isConnected (streamState w) = true /\
    error (streamState w) = None /\
    videoStats (streamState w) = Some {| width := wd; height := ht; bitrate := b |} /\
    attachedVideoTracks w = [track] /\
    is_Some (bitrateTimerRef w) /\
    calls w = [JanusInit (debug (stream (r_state rd)));
               NewJanus (serverUrl (stream (r_state rd)));
               JanusAttach "janus.plugin.streaming"
                 ("foxglovestreamingtest-" +:+ lib_randomString lib 12);
               PluginSend (handle_id h) (ReqWatch (streamId (stream (r_state rd)))) None;
               VideoPlay].
Proof.
  intros Hinit Hflag Hk Hwd Hb.
  exists 11. cbv zeta.
  change (run [EvMountEffect rd; EvJanusSuccess; EvAttachSuccess rd h;
               EvRemoteTrack rd track mid true; EvTimeout 11;
               EvVideoResized wd ht; EvPlayResolved mid] (initialWorld lib st))
    with (run ([EvMountEffect rd; EvJanusSuccess; EvAttachSuccess rd h;
                EvRemoteTrack rd track mid true; EvTimeout 11;
                EvVideoResized wd ht] ++ [EvPlayResolved mid]) (initialWorld lib st)).
  rewrite run_snoc. cbn [handle].
  set (w6 := run _ (initialWorld lib st)).
  assert (Hfacts :
    videoRef w6 = Some {| srcObject := Some 0%nat; videoWidth := wd; videoHeight := ht |} /\
    streamingRef w6 = Some h /\
    bitrateTimerRef w6 = None /\
    mediaStreams w6 !! 0%nat = Some [track] /\
    calls w6 = [JanusInit (debug (stream (r_state rd)));
                NewJanus (serverUrl (stream (r_state rd)));
                JanusAttach "janus.plugin.streaming"
                  ("foxglovestreamingtest-" +:+ lib_randomString lib 12);
                PluginSend (handle_id h) (ReqWatch (streamId (stream (r_state rd)))) None;
                VideoPlay]).
  { subst w6.
    destruct lib as [li ln lr], track as [tid k], rd as [rst [cs ic er vs sr]].
    cbn in Hinit, Hflag, Hk. subst li ic k.
    repeat split; vm_compute; reflexivity. }
  clearbody w6. destruct Hfacts as (Hv & Hs & Hr & Hm & Hc).
  rewrite onPlayResolved_exec. cbv zeta. rewrite Hr.
  set (w1 := exec (updateStreamState _) w6).
  assert (Hv1 : videoRef w1 = videoRef w6) by (unfold w1; frame).
  assert (Hs1 : streamingRef w1 = streamingRef w6) by (unfold w1; frame).
  assert (Hm1 : mediaStreams w1 = mediaStreams w6) by (unfold w1; frame).
  assert (Hc1 : calls w1 = calls w6) by (unfold w1; frame).
  assert (Hss1 : streamState w1 = applyUpdate (streamState w6) _)
    by apply updateStreamState_effect.
  clearbody w1.
  assert (Hready : samplerReady w1 {| srcObject := Some 0%nat; videoWidth := wd;
                                      videoHeight := ht |} h).
  { split; [by rewrite Hv1 | split; [exact Hwd | by rewrite Hs1]]. }
  pose proof (updateBitrate_success mid w1 _ h b Hready Hb) as Hss2.
  set (w2 := exec (updateBitrate mid) w1) in *.
  assert (Hv2 : videoRef w2 = videoRef w1) by (unfold w2; frame).
  assert (Hm2 : mediaStreams w2 = mediaStreams w1) by (unfold w2; frame).
  assert (Hc2 : calls w2 = calls w1) by (unfold w2; frame).
  clearbody w2.
  cbn [streamState bitrateTimerRef calls set_bitrateTimerRef set_nextTimer set_intervals].
  rewrite Hss2, Hss1. cbn [connectionState isConnected error videoStats applyUpdate
                           u_connectionState u_isConnected u_error nullish].
  do 4 (split; [reflexivity |]).
  split; [| split; [eauto | by rewrite Hc2, Hc1]].
  unfold attachedVideoTracks, derefStream.
  cbn [videoRef mediaStreams set_bitrateTimerRef set_nextTimer set_intervals].
  rewrite Hv2, Hv1, Hv. cbn [srcObject]. rewrite Hm2, Hm1, Hm.
  change (getVideoTracks [track] = [track]).
  unfold getVideoTracks. rewrite filter_cons_True by exact Hk. reflexivity.
Qed.

Lemma mount_to_first_sample_witness :
  exists hp,
    videoStats (streamState
      (run [EvMountEffect demoRender; EvJanusSuccess;
            EvAttachSuccess demoRender demoHandle;
            EvRemoteTrack demoRender videoA "v0" true; EvTimeout hp;
            EvVideoResized 640 480; EvPlayResolved "v0"]
           (initialWorld demoLibrary demoSettings)))
    = Some {| width := 640; height := 480; bitrate := "512 kbits/sec" |}.
Proof.
  destruct (mount_to_first_sample demoLibrary demoSettings demoRender demoHandle videoA
              "v0" "512 kbits/sec" 640 480 eq_refl eq_refl eq_refl)
    as (hp & H); [discriminate | reflexivity |].
  exists hp. exact (proj1 (proj2 (proj2 (proj2 H)))).
Defined.

(** ** A destroyed session and the sampler *)

(** X21.  The session's destroyed notification clears the stats but does
    not stop the sampler.  It moves the state to Destroyed, clears the
    connected flag and the stats, leaves the error as it was, and leaves
    the stored timer handle and the live samplers untouched; so when a
    sampler is live and the element and the handle still answer, its next
    tick publishes stats again, and the stats overlay is rendered over the
    state Destroyed. *)
Theorem destroyed_leaves_sampler_running (w : World) (el : HTMLVideoElement)
    (h : PluginHandle) (timer : Z) (mid b : string) :
  samplerReady w el h ->
  intervals w !! timer = Some mid ->
  getBitrate h mid = Ok b ->
  let w1 := exec onJanusDestroyed w in
  let w2 := exec (tickInterval timer) w1 in
  connectionState (streamState w1) = DESTROYED /\
  isConnected (streamState w1) = false /\
  videoStats (streamState w1) = None /\
  error (streamState w1) = error (streamState w) /\
  bitrateTimerRef w1 = bitrateTimerRef w /\
  intervals w1 = intervals w /\
  connectionState (streamState w2) = DESTROYED /\
  videoStats (streamState w2)
    = Some {| width := videoWidth el; height := videoHeight el; bitrate := b |} /\
  is_Some (statsOverlay (streamState w2)).
Proof.
  intros (Hv & Hw & Hs) Ht Hb w1 w2.
  assert (Hss1 : streamState w1 = applyUpdate (streamState w) (resetTo DESTROYED))
    by apply updateStreamState_effect.
  assert (Hr1 : bitrateTimerRef w1 = bitrateTimerRef w) by (unfold w1, onJanusDestroyed; frame).
  assert (Hi1 : intervals w1 = intervals w) by (unfold w1, onJanusDestroyed; frame).
  assert (Hready : samplerReady w1 el h).
  { split; [| split; [exact Hw |]].
    - rewrite <- Hv. unfold w1, onJanusDestroyed. frame.
    - rewrite <- Hs. unfold w1, onJanusDestroyed. frame. }
  assert (Hss2 : streamState w2 = {|
            connectionState := connectionState (streamState w1);
            isConnected := isConnected (streamState w1);
            error := error (streamState w1);
            videoStats := Some {| width := videoWidth el; height := videoHeight el;
                                  bitrate := b |};
            shouldReconnect := shouldReconnect (streamState w1) |}).
  { unfold w2, tickInterval. rewrite exec_gets, Hi1, Ht.
    exact (updateBitrate_success mid w1 el h b Hready Hb). }
  clearbody w1 w2. rewrite Hss2, Hss1. unfold statsOverlay. cbn.
  do 3 (split; [reflexivity |]).
  split; [reflexivity | split; [exact Hr1 | split; [exact Hi1 |]]].
  split; [reflexivity | split; [reflexivity | eauto]].
Qed.

Lemma destroyed_leaves_sampler_running_witness :
  is_Some (statsOverlay (streamState
    (exec (tickInterval 13) (exec onJanusDestroyed demoConnected)))).
Proof.
  unfold demoConnected.
  assert (Hv : videoRef (run demoSession (initialWorld demoLibrary demoSettings))
               = Some {| srcObject := Some 0%nat; videoWidth := 640; videoHeight := 480 |})
    by (vm_compute; reflexivity).
  assert (Hs : streamingRef (run demoSession (initialWorld demoLibrary demoSettings))
               = Some demoHandle)
    by (vm_compute; reflexivity).
  assert (Ht : intervals (run demoSession (initialWorld demoLibrary demoSettings)) !! 13
               = Some "v0")
    by (vm_compute; reflexivity).
  revert Hv Hs Ht.
  generalize (run demoSession (initialWorld demoLibrary demoSettings)) as w.
  intros w Hv Hs Ht.
  refine (proj2 (proj2 (proj2 (proj2 (proj2 (proj2 (proj2 (proj2
            (destroyed_leaves_sampler_running w
               {| srcObject := Some 0%nat; videoWidth := 640; videoHeight := 480 |}
               demoHandle 13 "v0" "512 kbits/sec" _ Ht eq_refl))))))))).
  split; [exact Hv | split; [discriminate | exact Hs]].
Defined.
